(** * Thermostat live view: a shallow embedding of [main.go]

    The program configures a live-view engine with one mount function,
    four event handlers, two self-message handlers and a render function
    over a [*ThermoModel].  Go pointers are locations into an explicit
    heap, [interface{}] is a tagged union, [float32] is IEEE-754 binary32
    (round to nearest even) and a handler is a computation in a small
    state-and-panic monad over the process state. *)

From Stdlib Require Import ZArith String List Floats.SpecFloat Lia.
From stdpp Require Import base option list gmap strings.
Import ListNotations.

Open Scope string_scope.
Open Scope list_scope.

(** ** float32 *)

Module F32.
Definition prec : Z := 24.
Definition emax : Z := 128.
Definition t : Type := spec_float.

Definition of_Z (z : Z) : t := binary_normalize prec emax z 0 false.
Definition add : t -> t -> t := SFadd prec emax.
Definition sub : t -> t -> t := SFsub prec emax.
Definition div : t -> t -> t := SFdiv prec emax.
Definition eqb : t -> t -> bool := SFeqb.
Definition leb : t -> t -> bool := SFleb.

(** An untyped decimal constant [n/d] converted to float32: the nearest
    binary32 value, ties to even.  Both [n] and [d] are small integers,
    exact in binary32, so the correctly rounded quotient is that value. *)
Definition of_decimal (n : Z) (d : positive) : t := div (of_Z n) (of_Z (Zpos d)).

Definition zero : t := S754_zero false.
Definition c0_1 : t := S754_finite false 13421773 (-27).
Definition c19_5 : t := S754_finite false 10223616 (-19).
Definition c19_7 : t := S754_finite false 10328474 (-19).
Definition c25 : t := S754_finite false 13107200 (-19).

(** The exact rational value [num/den] of a finite float. *)
Definition to_Q (x : t) : option (Z * Z) :=
  match x with
  | S754_zero _ => Some (0, 1)%Z
  | S754_finite s m e =>
      let sm := if s then Z.neg m else Z.pos m in
      Some (if (0 <=? e)%Z then (sm * 2 ^ e, 1)%Z else (sm, 2 ^ (- e))%Z)
  | _ => None
  end.
End F32.

(** ** Data model *)

Definition loc : Type := nat.

Record ThermoModel : Type := mkThermoModel {
  Name : string;
  Temperature : F32.t;
  Status : string;
  Time : string
}.

Record NatsMessage : Type := mkNatsMessage {
  nm_Name : string;
  nm_Value : Z
}.

Definition set_Temperature (t : F32.t) (m : ThermoModel) : ThermoModel :=
  {| Name := Name m; Temperature := t; Status := Status m; Time := Time m |}.
Definition set_Status (v : string) (m : ThermoModel) : ThermoModel :=
  {| Name := Name m; Temperature := Temperature m; Status := v; Time := Time m |}.
Definition set_Time (v : string) (m : ThermoModel) : ThermoModel :=
  {| Name := Name m; Temperature := Temperature m; Status := Status m; Time := v |}.

(** A Go [interface{}] value, for the dynamic types that reach this program:
    nil, a [*ThermoModel] (the only assigns a handler returns) and the basic
    types of event parameters and payloads.  Other structs, models held by
    value and maps are not represented. *)
Inductive value : Type :=
| VNil
| VModel (p : loc)
| VString (s : string)
| VInt (z : Z)
| VFloat32 (f : F32.t)
| VBool (b : bool).

Definition is_string (v : value) : bool :=
  match v with VString _ => true | _ => false end.

(** Go's [error]; every handler of the program returns [nil], here [None]. *)
Inductive error : Type := Err (msg : string).

(** The request carried by the context: [URL.Query()] keeps the order of the
    query string, [Get] returns the first value of a key or the empty string. *)
Record Request : Type := { URL_Query : list (string * string) }.
Record Context : Type := { ctx_Request : Request }.

(** Go's [context.Context] as a handler receives it: the context of a
    request, as the mount and the events get it, or a context without one
    ([context.Background], as the engine passes it to a self-handler when it
    delivers a broadcast), on which [live.Request] is nil. *)
Inductive GoContext : Type :=
| Background
| WithRequest (c : Context).

Coercion WithRequest : Context >-> GoContext.

Definition has_request (g : GoContext) : bool :=
  match g with WithRequest _ => true | Background => false end.

Fixpoint Query_Get (q : list (string * string)) (key : string) : string :=
  match q with
  | [] => ""
  | (k, v) :: q' => if String.eqb k key then v else Query_Get q' key
  end.

(** [live.Params]: the decoded parameters of an event. *)
Definition Params : Type := gmap string value.

(** What a handler sees of a socket: its identity and [Assigns()]. *)
Record Socket : Type := mkSocket {
  sock_id : nat;
  sessionID : string;
  Assigns : value
}.

Definition set_Assigns (v : value) (s : Socket) : Socket :=
  {| sock_id := sock_id s; sessionID := sessionID s; Assigns := v |}.

(** A subscription on the process-wide encoded connection [ec].  The callback
    of the program closes over the socket and the context of the mount. *)
Record Subscription : Type := {
  sub_topic : string;
  sub_owner : Socket;
  sub_ctx : Context
}.

(** A message handed to the engine by [s.Self], with the context the caller
    passes, or by [s.Broadcast], which takes none. *)
Inductive Delivery : Type :=
| ToSelf (g : GoContext) (target : nat) (topic : string) (payload : value)
| ToAll (origin : nat) (topic : string) (payload : value).

(** The process state the handlers act on. *)
Record World : Type := mkWorld {
  heap : list ThermoModel;
  ec : list Subscription;
  sent : list Delivery;
  logs : list string
}.

(** ** Computations *)

Inductive panic : Type :=
| NilDereference
| TypeAssertion (want : string).

Inductive Outcome (A : Type) : Type :=
| Ret (a : A)
| Panic (p : panic).
Arguments Ret {A} a.
Arguments Panic {A} p.

Definition M (A : Type) : Type := World -> Outcome (A * World).

Definition ret {A} (a : A) : M A := fun w => Ret (a, w).
Definition bind {A B} (c : M A) (k : A -> M B) : M B :=
  fun w => match c w with
           | Ret (a, w') => k a w'
           | Panic p => Panic p
           end.
Definition throw {A} (p : panic) : M A := fun _ => Panic p.

Notation "x <~ c ;; k" := (bind c (fun x => k))
  (at level 100, c at next level, right associativity).
Notation "c ;;; k" := (bind c (fun _ => k))
  (at level 100, right associativity).

(** [&ThermoModel{...}] *)
Definition alloc (m : ThermoModel) : M loc :=
  fun w => Ret (length (heap w),
                {| heap := heap w ++ [m]; ec := ec w; sent := sent w; logs := logs w |}).

(** [*p] *)
Definition load (p : loc) : M ThermoModel :=
  fun w => match heap w !! p with
           | Some m => Ret (m, w)
           | None => Panic NilDereference
           end.

(** [*p = m] *)
Definition store (p : loc) (m : ThermoModel) : M unit :=
  fun w => match heap w !! p with
           | Some _ => Ret (tt, {| heap := <[p := m]> (heap w); ec := ec w;
                                    sent := sent w; logs := logs w |})
           | None => Panic NilDereference
           end.

Definition log_Println (line : string) : M unit :=
  fun w => Ret (tt, {| heap := heap w; ec := ec w; sent := sent w;
                       logs := logs w ++ [line] |}).

Definition emit (d : Delivery) : M unit :=
  fun w => Ret (tt, {| heap := heap w; ec := ec w; sent := sent w ++ [d];
                       logs := logs w |}).

(** [s.Self(ctx, topic, payload)] and [s.Broadcast(topic, payload)]; the
    program drops the error both return.  Both record the call, in order:
    what the engine does with the message, and when, is the engine's. *)
Definition Self (g : GoContext) (s : Socket) (topic : string) (payload : value) : M unit :=
  emit (ToSelf g (sock_id s) topic payload).
Definition Broadcast (s : Socket) (topic : string) (payload : value) : M unit :=
  emit (ToAll (sock_id s) topic payload).


(** [ec.Subscribe(topic, callback)] on the connection once it is set; the
    program drops the subscription handle and the error it returns.  [ec w]
    lists the subscriptions on that connection. *)
Definition ec_Subscribe (topic : string) (s : Socket) (ctx : Context) : M unit :=
  fun w => Ret (tt, {| heap := heap w;
                       ec := ec w ++ [{| sub_topic := topic; sub_owner := s; sub_ctx := ctx |}];
                       sent := sent w; logs := logs w |}).


(** Library functions the program calls and the repository does not define. *)
Class Externals : Type := {
  Params_Float32 : Params -> string -> F32.t;
  Params_String : Params -> string -> string;
  Sprintf : string -> list value -> string;
  FormatRFC1123 : Z -> string;
  FormatFloat32 : F32.t -> string;
  HTMLEscapeString : string -> string;
  JSON_Decode : string -> option NatsMessage
}.

(** One instance, to run the definitions on concrete inputs. *)
Definition plain_externals : Externals := {|
  Params_Float32 := fun p k => match p !! k with Some (VFloat32 f) => f | _ => F32.zero end;
  Params_String := fun p k => match p !! k with Some (VString s) => s | _ => "" end;
  Sprintf := fun f _ => f;
  FormatRFC1123 := fun _ => "Thu, 01 Jan 1970 00:00:00 UTC";
  FormatFloat32 := fun _ => "0";
  HTMLEscapeString := fun s => s;
  JSON_Decode := fun s => if String.eqb s "{}" then Some (mkNatsMessage "" 0) else None
|}.

(** ** The program *)

Section Program.
Context {ext : Externals}.

(** [live.Request(ctx).URL] is read only when the socket holds no model; on a
    context without a request it dereferences nil. *)
Definition NewThermoModel (g : GoContext) (s : Socket) : M loc :=
  match Assigns s with
  | VModel m => ret m
  | _ =>
      match g with
      | WithRequest ctx =>
          alloc {| Name := Query_Get (URL_Query (ctx_Request ctx)) "name";
                   Temperature := F32.c19_5;
                   Status := "-";
                   Time := "" |}
      | Background => throw NilDereference
      end
  end.

(** The callback given to [ec.Subscribe] in [thermoMount]. *)
Definition goLiveCallback (ctx : Context) (s : Socket) (m : NatsMessage) : M unit :=
  let timeUnix := nm_Value m in
  Self ctx s "status" (VString ("Nats message: " +:+ FormatRFC1123 timeUnix)).

(** [thermoMount] in a process whose [ec] is set. *)
Definition thermoMount (ctx : Context) (s : Socket) : M (value * option error) :=
  log_Println "Mounting application" ;;;
  ec_Subscribe "go-live" s ctx ;;;
  m <~ NewThermoModel ctx s ;;
  ret (VModel m, None).



Definition tempUp (ctx : Context) (s : Socket) (p : Params) : M (value * option error) :=
  model <~ NewThermoModel ctx s ;;
  m <~ load model ;;
  store model (set_Temperature (F32.add (Temperature m) F32.c0_1) m) ;;;
  ret (VModel model, None).

Definition tempDown (ctx : Context) (s : Socket) (p : Params) : M (value * option error) :=
  model <~ NewThermoModel ctx s ;;
  m <~ load model ;;
  store model (set_Temperature (F32.sub (Temperature m) F32.c0_1) m) ;;;
  ret (VModel model, None).

Definition tempChange (ctx : Context) (s : Socket) (p : Params) : M (value * option error) :=
  model <~ NewThermoModel ctx s ;;
  m <~ load model ;;
  let t0 := Temperature m in
  store model (set_Temperature (F32.add t0 (Params_Float32 p "temperature")) m) ;;;
  m' <~ load model ;;
  Broadcast s "status"
    (VString (Sprintf (Name m' +:+ ": Temperature changed from %f to %f")
                      [VFloat32 t0; VFloat32 (Temperature m')])) ;;;
  ret (VModel model, None).

Definition saveEvent (ctx : Context) (s : Socket) (p : Params) : M (value * option error) :=
  model <~ NewThermoModel ctx s ;;
  let message := Params_String p "message" in
  m <~ load model ;;
  Broadcast s "status" (VString (Name m +:+ ": " +:+ message)) ;;;
  ret (VModel model, None).

(** [data.(string)]: the assertion without the comma-ok form panics on any
    other dynamic type. *)
Definition assert_string (data : value) : M string :=
  match data with
  | VString s => ret s
  | _ => throw (TypeAssertion "string")
  end.

(** The handler registered by [h.HandleSelf("status", ...)]. *)
Definition selfStatus (ctx : GoContext) (s : Socket) (data : value) : M (value * option error) :=
  model <~ NewThermoModel ctx s ;;
  v <~ assert_string data ;;
  m <~ load model ;;
  store model (set_Status v m) ;;;
  ret (VModel model, None).

(** The handler registered by [h.HandleSelf("time", ...)]. *)
Definition selfTime (ctx : GoContext) (s : Socket) (data : value) : M (value * option error) :=
  model <~ NewThermoModel ctx s ;;
  v <~ assert_string data ;;
  m <~ load model ;;
  store model (set_Time v m) ;;;
  ret (VModel model, None).

(** ** Rendering *)

(** [live.RenderContext]: the template reads [.Assigns] only. *)
Record RenderContext : Type := {
  rc_Socket : Socket;
  rc_Assigns : value
}.

#[local] Set Warnings "-register-all".

Inductive field : Type := FName | FTemperature | FTime | FStatus.

(** The parsed template: static text, HTML comments (which [html/template]
    drops from the output), field actions and the one conditional. *)
Inductive node : Type :=
| Text (s : string)
| Comment (s : string)
| Field (f : field)
| IfGt (f : field) (bound : F32.t) (body : list node).

(** The template text is written with an apostrophe wherever the source has a
    double quote (the source has no apostrophe); [quoted] puts them back. *)
Definition dquote (c : Ascii.ascii) : Ascii.ascii :=
  if Ascii.eqb c (Ascii.ascii_of_nat 39) then Ascii.ascii_of_nat 34 else c.

Fixpoint quoted (s : string) : string :=
  match s with
  | EmptyString => EmptyString
  | String c s' => String (dquote c) (quoted s')
  end.

Definition thermo_template : list node :=
  [Text (quoted "
		<html>
			<head>
				<link href='https://cdn.jsdelivr.net/npm/bootstrap@5.2.2/dist/css/bootstrap.min.css' rel='stylesheet' integrity='sha384-Zenh87qX5JnK2Jl0vWa8Ck2rdkQ2Bzep5IDxbcnCeuOxjzrPF/et3URy9Bv1WTRi' crossorigin='anonymous' />
				<script src='https://cdn.jsdelivr.net/npm/bootstrap@5.2.2/dist/js/bootstrap.bundle.min.js' integrity='sha384-OERcA2EqjJCMA+/3y+gxIOqMEjwtxJY7qPCqsdltbNJuaOe923+mo//f6V8Qbsw3' crossorigin='anonymous'></script>
			</head>
			<body>
			  <div class='container' style='text-align: center'>
			    <h4>User: ");
     Field FName;
     Text (quoted "</h4>
				<h2>Temperature: ");
     Field FTemperature;
     Text (quoted "C</h2>
				<div>
					");
     IfGt FTemperature F32.c25
      [Text (quoted "
						<h4 style='color: red'>Warning: Temperature is too high!!! (over 25C)</h4>
					")];
     Text (quoted "
				</div>
				<div style='padding-top: 20px'>
                   <button live-click='temp-up' live-window-keyup='temp-up' live-key='ArrowUp' class='btn btn-success btn-sm'>+0.1C</button> - 
				   <button live-click='temp-down' live-window-keyup='temp-down' live-key='ArrowDown'  class='btn btn-success btn-sm'>-0.1C</button>
				</div>
				<div style='padding-top: 20px; padding-bottom: 20px'>
                   <button live-click='temp-change' live-value-temperature='2' class='btn btn-success btn-sm'>+2C</button> - 
				   <button live-click='temp-change' live-value-temperature='-2' class='btn btn-success btn-sm'>-2C</button>
				</div>
				<div style='border: 1px solid black; padding: 5px'>
				   <span>");
     Field FTime;
     Text (quoted "</span>
				</div>
				<div style='padding: 10px'>
                 <form live-submit='save' live-hook='submit'>
				   <input type='text' name='message' />&#160;
				   <input type='submit' value='send ...' class='btn btn-success btn-sm' />
				 </form>
				</div>
				<div live-update='prepend'>
                  ");
     Field FStatus;
     Text (quoted "
				</div>
			  </div>
				");
     Comment "<!-- Include to make live work -->";
     Text (quoted "
				<script src='/live.js'></script>
				<script>
					window.Hooks = {
						'submit': {
							mounted: function() {
								this.el.addEventListener('submit', () => {
									this.el.querySelector('input').value = '';
								});
							}
						}
					};
				</script>
			</body>
		</html>
	")].

(** [{{.Assigns.f}}] in HTML text: the value is printed and escaped. *)
Definition eval_field (f : field) (m : ThermoModel) : string :=
  match f with
  | FName => HTMLEscapeString (Name m)
  | FTemperature => HTMLEscapeString (FormatFloat32 (Temperature m))
  | FTime => HTMLEscapeString (Time m)
  | FStatus => HTMLEscapeString (Status m)
  end.

(** [gt .Assigns.f bound]: the template function [gt] is the negation of
    [le], so it holds of a NaN.  Only the float field is compared in the
    template; comparing a string field with a number is an execution error. *)
Definition eval_gt (f : field) (bound : F32.t) (m : ThermoModel) : option bool :=
  match f with
  | FTemperature => Some (negb (F32.leb (Temperature m) bound))
  | _ => None
  end.

Fixpoint exec_node (m : ThermoModel) (n : node) : option string :=
  match n with
  | Text s => Some s
  | Comment _ => Some ""
  | Field f => Some (eval_field f m)
  | IfGt f bound body =>
      match eval_gt f bound m with
      | None => None
      | Some true =>
          (fix exec_body (l : list node) : option string :=
             match l with
             | [] => Some ""
             | x :: l' =>
                 match exec_node m x, exec_body l' with
                 | Some a, Some b => Some (a +:+ b)
                 | _, _ => None
                 end
             end) body
      | Some false => Some ""
      end
  end.

Fixpoint exec_nodes (m : ThermoModel) (l : list node) : option string :=
  match l with
  | [] => Some ""
  | x :: l' =>
      match exec_node m x, exec_nodes m l' with
      | Some a, Some b => Some (a +:+ b)
      | _, _ => None
      end
  end.

Inductive render_result : Type :=
| Rendered (out : string)
| RenderFailed (e : error).

(** [tmpl.Execute(&buf, data)] on the parsed template.  [.Assigns.Name] on
    anything but a non-nil [*ThermoModel] is an execution error, returned as
    the error of [render]. *)
Definition render (ctx : Context) (data : RenderContext) : M render_result :=
  fun w =>
    match rc_Assigns data with
    | VModel p =>
        match heap w !! p with
        | Some m =>
            match exec_nodes m thermo_template with
            | Some out => Ret (Rendered out, w)
            | None => Ret (RenderFailed (Err "template: error calling gt"), w)
            end
        | None => Ret (RenderFailed (Err "template: nil pointer evaluating *ThermoModel.Name"), w)
        end
    | _ => Ret (RenderFailed (Err "template: can't evaluate field Name"), w)
    end.

(** ** The engine

    The repository imports the live-view engine and only configures it; the
    definitions of this part follow the specification of the engine. *)

(** Modelled from the spec: the states of a socket, the events and messages
    of the data model and the error taxonomy, all declared by the engine. *)
Inductive lifecycle : Type := Connecting | Mounted | Active | Disconnecting | Closed.

Record Event : Type := { ev_name : string; ev_params : Params }.

Inductive Message : Type :=
| MEvent (e : Event)
| MSelf (g : GoContext) (topic : string) (payload : value).

Inductive diagnostic : Type :=
| MountError (e : error)
| UnknownEvent (name : string)
| UnknownTopic (topic : string)
| PayloadDecodeError
| EventHandlerError (e : error)
| SelfMessageHandlerError (e : error)
| RenderError (e : error)
| DecodeFailure (topic : string).

Abbreviation MountHandler := (Context -> Socket -> M (value * option error)).
Abbreviation EventHandler := (Context -> Socket -> Params -> M (value * option error)).
Abbreviation SelfHandler := (GoContext -> Socket -> value -> M (value * option error)).
Abbreviation RenderHandler := (Context -> RenderContext -> M render_result).

(** Modelled from the spec: the handler table of the engine ([live.Handler]),
    with the registration calls [main] makes on it. *)
Record Handler : Type := {
  renderHandler : option RenderHandler;
  mountHandler : option MountHandler;
  eventHandlers : gmap string EventHandler;
  selfHandlers : gmap string SelfHandler
}.

Definition NewHandler : Handler :=
  {| renderHandler := None; mountHandler := None; eventHandlers := ∅; selfHandlers := ∅ |}.

Definition HandleRender (f : RenderHandler) (h : Handler) : Handler :=
  {| renderHandler := Some f; mountHandler := mountHandler h;
     eventHandlers := eventHandlers h; selfHandlers := selfHandlers h |}.

Definition HandleMount (f : MountHandler) (h : Handler) : Handler :=
  {| renderHandler := renderHandler h; mountHandler := Some f;
     eventHandlers := eventHandlers h; selfHandlers := selfHandlers h |}.

Definition HandleEvent (name : string) (f : EventHandler) (h : Handler) : Handler :=
  {| renderHandler := renderHandler h; mountHandler := mountHandler h;
     eventHandlers := <[name := f]> (eventHandlers h); selfHandlers := selfHandlers h |}.

Definition HandleSelf (topic : string) (f : SelfHandler) (h : Handler) : Handler :=
  {| renderHandler := renderHandler h; mountHandler := mountHandler h;
     eventHandlers := eventHandlers h; selfHandlers := <[topic := f]> (selfHandlers h) |}.

(** The handler table [main] builds, in the order of its registration calls. *)
Definition main : Handler :=
  let h := NewHandler in
  let h := HandleRender render h in
  let h := HandleMount thermoMount h in
  let h := HandleEvent "temp-up" tempUp h in
  let h := HandleEvent "temp-down" tempDown h in
  let h := HandleEvent "temp-change" tempChange h in
  let h := HandleEvent "save" saveEvent h in
  let h := HandleSelf "status" selfStatus h in
  let h := HandleSelf "time" selfTime h in
  h.

(** Modelled from the spec: the engine's side of one connection, the socket
    of the data model with its lifecycle state, inbound queue, outbox,
    tracked subscriptions and surfaced diagnostics. *)
Record Conn : Type := mkConn {
  socket : Socket;
  phase : lifecycle;
  inbox : list Message;
  outbox : list string;
  subscriptions : list string;
  diagnostics : list diagnostic
}.

Definition with_socket (s : Socket) (c : Conn) : Conn :=
  {| socket := s; phase := phase c; inbox := inbox c; outbox := outbox c;
     subscriptions := subscriptions c; diagnostics := diagnostics c |}.
Definition with_phase (ph : lifecycle) (c : Conn) : Conn :=
  {| socket := socket c; phase := ph; inbox := inbox c; outbox := outbox c;
     subscriptions := subscriptions c; diagnostics := diagnostics c |}.
Definition with_inbox (q : list Message) (c : Conn) : Conn :=
  {| socket := socket c; phase := phase c; inbox := q; outbox := outbox c;
     subscriptions := subscriptions c; diagnostics := diagnostics c |}.
Definition push_output (out : string) (c : Conn) : Conn :=
  {| socket := socket c; phase := phase c; inbox := inbox c; outbox := outbox c ++ [out];
     subscriptions := subscriptions c; diagnostics := diagnostics c |}.
Definition surface (d : diagnostic) (c : Conn) : Conn :=
  {| socket := socket c; phase := phase c; inbox := inbox c; outbox := outbox c;
     subscriptions := subscriptions c; diagnostics := diagnostics c ++ [d] |}.

(** Modelled from the spec: the render pipeline of the engine, run after the
    mount and after every successful dispatch; a render error is surfaced and
    the socket keeps its assigns. *)
Definition render_cycle (h : Handler) (ctx : Context) (c : Conn) : M Conn :=
  match renderHandler h with
  | None => ret c
  | Some f =>
      r <~ f ctx {| rc_Socket := socket c; rc_Assigns := Assigns (socket c) |} ;;
      match r with
      | Rendered out => ret (push_output out c)
      | RenderFailed e => ret (surface (RenderError e) c)
      end
  end.

(** Modelled from the spec: the dispatch of the engine's event registry.  An
    unregistered name is a no-op with an [UnknownEvent] diagnostic; a handler
    error keeps the prior assigns and skips the render. *)
Definition dispatch (h : Handler) (ctx : Context) (c : Conn) (e : Event) : M Conn :=
  match eventHandlers h !! ev_name e with
  | None => ret (surface (UnknownEvent (ev_name e)) c)
  | Some f =>
      r <~ f ctx (socket c) (ev_params e) ;;
      match r with
      | (v, None) => render_cycle h ctx (with_socket (set_Assigns v (socket c)) c)
      | (_, Some err) => ret (surface (EventHandlerError err) c)
      end
  end.

(** Modelled from the spec: the dispatch of the engine's self-message
    registry, of the same shape and keyed by topic. *)
Definition dispatch_self (h : Handler) (ctx : Context) (g : GoContext) (c : Conn)
    (topic : string) (payload : value) : M Conn :=
  match selfHandlers h !! topic with
  | None => ret (surface (UnknownTopic topic) c)
  | Some f =>
      r <~ f g (socket c) payload ;;
      match r with
      | (v, None) => render_cycle h ctx (with_socket (set_Assigns v (socket c)) c)
      | (_, Some err) => ret (surface (SelfMessageHandlerError err) c)
      end
  end.

(** Modelled from the spec: one turn of the socket's sequential loop, which
    takes the oldest message of the inbound queue of an Active socket. *)
Definition step (h : Handler) (ctx : Context) (c : Conn) : M Conn :=
  match phase c, inbox c with
  | Active, msg :: rest =>
      match msg with
      | MEvent e => dispatch h ctx (with_inbox rest c) e
      | MSelf g topic payload => dispatch_self h ctx g (with_inbox rest c) topic payload
      end
  | _, _ => ret c
  end.

(** Modelled from the spec: the loop itself, one turn per unit of fuel. *)
Fixpoint run (fuel : nat) (h : Handler) (ctx : Context) (c : Conn) : M Conn :=
  match fuel with
  | O => ret c
  | S fuel' => c' <~ step h ctx c ;; run fuel' h ctx c'
  end.

(** Modelled from the spec: arrival of messages at the socket's queue. *)
Definition enqueue (msgs : list Message) (c : Conn) : Conn :=
  with_inbox (inbox c ++ msgs) c.

(** The left fold of the testable property, in the spec's words: the handler
    function an event stands for is the registered handler fed the socket
    with the current assigns, its returned assigns fed back; an event with no
    registered handler stands for the identity. *)
Definition handler_fn (h : Handler) (ctx : Context) (e : Event) (s : Socket) : M Socket :=
  match eventHandlers h !! ev_name e with
  | None => ret s
  | Some f =>
      r <~ f ctx s (ev_params e) ;;
      match r with
      | (v, None) => ret (set_Assigns v s)
      | (_, Some _) => ret s
      end
  end.

Definition fold_step (h : Handler) (ctx : Context)
    (acc : Outcome (Socket * World)) (e : Event) : Outcome (Socket * World) :=
  match acc with
  | Ret (s, w) => handler_fn h ctx e s w
  | Panic p => Panic p
  end.

(** Modelled from the spec: the server, all connections by socket identity,
    the process state and the diagnostics of the pub/sub bridge. *)
Record Server : Type := mkServer {
  conns : gmap nat Conn;
  next_id : nat;
  world : World;
  bridge_diagnostics : list diagnostic
}.

Definition with_world (w : World) (srv : Server) : Server :=
  {| conns := conns srv; next_id := next_id srv; world := w;
     bridge_diagnostics := bridge_diagnostics srv |}.

(** Modelled from the spec: a new connection.  The mount function computes
    the initial assigns of a fresh socket; a mount error refuses the
    connection; the first render follows and the socket becomes Active.  The
    socket tracks the subscriptions the engine made for it: none, the mount
    function of the program subscribes on [ec] by itself. *)
Definition connect (h : Handler) (ctx : Context) (session : string)
    (srv : Server) : Outcome Server :=
  let sid := next_id srv in
  let s := {| sock_id := sid; sessionID := session; Assigns := VNil |} in
  let c0 := {| socket := s; phase := Connecting; inbox := []; outbox := [];
               subscriptions := []; diagnostics := [] |} in
  match mountHandler h with
  | None =>
      Ret {| conns := <[sid := with_phase Active c0]> (conns srv); next_id := S sid;
             world := world srv; bridge_diagnostics := bridge_diagnostics srv |}
  | Some f =>
      match f ctx s (world srv) with
      | Panic p => Panic p
      | Ret ((_, Some err), w) =>
          Ret {| conns := <[sid := surface (MountError err) (with_phase Closed c0)]> (conns srv);
                 next_id := S sid; world := w;
                 bridge_diagnostics := bridge_diagnostics srv |}
      | Ret ((v, None), w) =>
          let c1 := with_phase Mounted (with_socket (set_Assigns v s) c0) in
          match render_cycle h ctx c1 w with
          | Panic p => Panic p
          | Ret (c2, w') =>
              Ret {| conns := <[sid := with_phase Active c2]> (conns srv);
                     next_id := S sid; world := w';
                     bridge_diagnostics := bridge_diagnostics srv |}
          end
      end
  end.

(** Modelled from the spec: teardown of the subscriptions a socket tracks. *)
Definition tracked (sid : nat) (topics : list string) (sub : Subscription) : bool :=
  bool_decide (sock_id (sub_owner sub) = sid) && bool_decide (sub_topic sub ∈ topics).

Definition unsubscribe_all (sid : nat) (topics : list string)
    (subs : list Subscription) : list Subscription :=
  List.filter (fun sub => negb (tracked sid topics sub)) subs.

(** Modelled from the spec: disconnection.  The socket goes through
    Disconnecting, where the engine unsubscribes from all topics the socket
    tracks, to Closed; a second signal for a Closed socket is a no-op. *)
Definition disconnect (sid : nat) (srv : Server) : Server :=
  match conns srv !! sid with
  | None => srv
  | Some c =>
      match phase c with
      | Closed => srv
      | _ =>
          let w := world srv in
          {| conns := <[sid := with_phase Closed (with_inbox [] c)]> (conns srv);
             next_id := next_id srv;
             world := {| heap := heap w;
                         ec := unsubscribe_all sid (subscriptions c) (ec w);
                         sent := sent w; logs := logs w |};
             bridge_diagnostics := bridge_diagnostics srv |}
      end
  end.

(** Modelled from the spec: the pub/sub bridge.  The transport hands the raw
    payload to every subscription on the topic; the encoded connection
    decodes it into the argument type of the callback, logs and drops it when
    that fails and calls the callback of the program otherwise. *)
Definition bridge_one (raw : string) (acc : Outcome (unit * World) * list diagnostic)
    (sub : Subscription) : Outcome (unit * World) * list diagnostic :=
  match acc with
  | (Panic p, ds) => (Panic p, ds)
  | (Ret (_, w), ds) =>
      match JSON_Decode raw with
      | None => (Ret (tt, w), (ds ++ [DecodeFailure (sub_topic sub)])%list)
      | Some m => (goLiveCallback (sub_ctx sub) (sub_owner sub) m w, ds)
      end
  end.

(** Modelled from the spec: delivery of one raw payload on a topic. *)
Definition on_topic (topic : string) (sub : Subscription) : bool :=
  String.eqb (sub_topic sub) topic.

Definition bridge_deliver (topic raw : string) (srv : Server) : Outcome Server :=
  let subs := List.filter (on_topic topic) (ec (world srv)) in
  match fold_left (bridge_one raw) subs (Ret (tt, world srv), []) with
  | (Panic p, _) => Panic p
  | (Ret (_, w), ds) =>
      Ret {| conns := conns srv; next_id := next_id srv; world := w;
             bridge_diagnostics := (bridge_diagnostics srv ++ ds)%list |}
  end.

(** Modelled from the spec: the hub moves what the handlers sent into the
    inbound queues of the live sockets; a target that is gone is skipped.  A
    message to self keeps the context it was sent with, a broadcast is
    delivered without a request. *)
Definition accepts (d : Delivery) (sid : nat) (c : Conn) : bool :=
  match phase c with
  | Closed | Disconnecting => false
  | _ => match d with
         | ToSelf _ target _ _ => Nat.eqb target sid
         | ToAll _ _ _ => true
         end
  end.

Definition message_of (d : Delivery) : Message :=
  match d with
  | ToSelf g _ topic payload => MSelf g topic payload
  | ToAll _ topic payload => MSelf Background topic payload
  end.

Definition route_one (cs : gmap nat Conn) (d : Delivery) : gmap nat Conn :=
  map_imap (fun sid c => Some (if accepts d sid c then enqueue [message_of d] c else c)) cs.

Definition route (srv : Server) : Server :=
  let w := world srv in
  {| conns := fold_left route_one (sent w) (conns srv);
     next_id := next_id srv;
     world := {| heap := heap w; ec := ec w; sent := []; logs := logs w |};
     bridge_diagnostics := bridge_diagnostics srv |}.

(** Go pointers do not dangle: a socket whose assigns holds a [*ThermoModel]
    holds one that is allocated. *)
Definition valid_assigns (v : value) (w : World) : Prop :=
  match v with
  | VModel p => p < length (heap w)
  | _ => True
  end.

(** The model [NewThermoModel] builds for a socket that holds none. *)
Definition fresh_model (ctx : Context) : ThermoModel :=
  {| Name := Query_Get (URL_Query (ctx_Request ctx)) "name";
     Temperature := F32.c19_5; Status := "-"; Time := "" |}.


Definition holds_model (s : Socket) : bool :=
  match Assigns s with VModel _ => true | _ => false end.

Definition is_pointer (v : value) : bool :=
  match v with VModel _ => true | _ => false end.

Definition with_heap (hp : list ThermoModel) (w : World) : World :=
  {| heap := hp; ec := ec w; sent := sent w; logs := logs w |}.

Definition with_sent (ds : list Delivery) (w : World) : World :=
  {| heap := heap w; ec := ec w; sent := ds; logs := logs w |}.

(** What the callback of [thermoMount] sends for a decoded message. *)
Definition status_of (msg : NatsMessage) (sub : Subscription) : Delivery :=
  ToSelf (sub_ctx sub) (sock_id (sub_owner sub)) "status"
         (VString ("Nats message: " +:+ FormatRFC1123 (nm_Value msg))).

(** The payload of a message is a string. *)
Definition string_payload (d : Delivery) : bool :=
  match d with
  | ToSelf _ _ _ payload => is_string payload
  | ToAll _ _ payload => is_string payload
  end.

(** The socket of a new connection, before its mount. *)
Definition new_socket (srv : Server) (session : string) : Socket :=
  {| sock_id := next_id srv; sessionID := session; Assigns := VNil |}.

(** The subscription [thermoMount] makes for a socket. *)
Definition go_live (ctx : Context) (s : Socket) : Subscription :=
  {| sub_topic := "go-live"; sub_owner := s; sub_ctx := ctx |}.

End Program.

(** ** Observations on the program *)

(** The events whose handler broadcasts. *)
Definition broadcasting (e : Event) : bool :=
  String.eqb (ev_name e) "temp-change" || String.eqb (ev_name e) "save".

(** A broadcast of a string on [status] by the socket [sid]. *)
Definition status_broadcast (sid : nat) (d : Delivery) : bool :=
  match d with
  | ToAll origin topic (VString _) => Nat.eqb origin sid && String.eqb topic "status"
  | _ => false
  end.

(** The static text of a template, conditionals included. *)
Fixpoint node_text (n : node) : string :=
  match n with
  | Text s => s
  | Comment _ => ""
  | Field _ => ""
  | IfGt _ _ body =>
      (fix body_text (l : list node) : string :=
         match l with
         | [] => ""
         | x :: l' => node_text x +:+ body_text l'
         end) body
  end.

Fixpoint template_text (l : list node) : string :=
  match l with
  | [] => ""
  | x :: l' => node_text x +:+ template_text l'
  end.

Fixpoint skip (n : nat) (s : string) : string :=
  match n, s with
  | S n', String _ s' => skip n' s'
  | _, _ => s
  end.

Fixpoint until_quote (s : string) : string :=
  match s with
  | EmptyString => EmptyString
  | String c s' =>
      if Ascii.eqb c (Ascii.ascii_of_nat 34) then EmptyString
      else String c (until_quote s')
  end.

(** The values of every occurrence of the attribute [attr] in [s], where
    [opening] is the attribute name followed by the equals sign and the
    opening double quote. *)
Fixpoint values_after (opening : string) (s : string) : list string :=
  match s with
  | EmptyString => []
  | String _ s' =>
      (if String.prefix opening s
       then [until_quote (skip (String.length opening) s)]
       else [])
      ++ values_after opening s'
  end.

Definition attr_values (attr : string) (s : string) : list string :=
  values_after (attr +:+ quoted "='") s.

(** The event names the page can send: the values of its [live-click],
    [live-window-keyup] and [live-submit] attributes. *)
Definition template_events (l : list node) : list string :=
  attr_values "live-click" (template_text l)
  ++ attr_values "live-window-keyup" (template_text l)
  ++ attr_values "live-submit" (template_text l).

(** ** Sample inputs *)

Definition ctx0 : Context :=
  {| ctx_Request := {| URL_Query := [("name", "ann")] |} |}.

Definition world0 : World := {| heap := []; ec := []; sent := []; logs := [] |}.

(** A socket before its mount and the same socket after it. *)
Definition sock0 : Socket := {| sock_id := 0; sessionID := "s0"; Assigns := VNil |}.
Definition sock1 : Socket := set_Assigns (VModel 0) sock0.

Definition world1 : World :=
  {| heap := [fresh_model ctx0];
     ec := [{| sub_topic := "go-live"; sub_owner := sock0; sub_ctx := ctx0 |}];
     sent := [];
     logs := ["Mounting application"] |}.

Definition server0 : Server :=
  {| conns := ∅; next_id := 0; world := world0; bridge_diagnostics := [] |}.

Definition conn1 : Conn :=
  {| socket := sock1; phase := Active; inbox := []; outbox := [];
     subscriptions := []; diagnostics := [] |}.

Definition server1 : Server :=
  {| conns := {[0 := conn1]}; next_id := 1; world := world1; bridge_diagnostics := [] |}.

Definition view1 : RenderContext := {| rc_Socket := sock1; rc_Assigns := VModel 0 |}.

Definition temp_up : Event := {| ev_name := "temp-up"; ev_params := ∅ |}.
Definition frobulate : Event := {| ev_name := "frobulate"; ev_params := ∅ |}.

Definition temp_change : Event :=
  {| ev_name := "temp-change"; ev_params := {["temperature" := VFloat32 (F32.of_Z 2)]} |}.
Definition save_hello : Event :=
  {| ev_name := "save"; ev_params := {["message" := VString "hello"]} |}.
Definition clicks : list Event := [temp_up; frobulate; temp_change; save_hello].

(** * Properties *)

Implicit Types (ctx : Context) (g : GoContext).

(** ** float32 constants *)

Lemma c0_1_rounds : F32.c0_1 = F32.of_decimal 1 10.
Proof. vm_compute. reflexivity. Qed.

Lemma c19_5_rounds : F32.c19_5 = F32.of_decimal 195 10.
Proof. vm_compute. reflexivity. Qed.

Lemma c19_7_rounds : F32.c19_7 = F32.of_decimal 197 10.
Proof. vm_compute. reflexivity. Qed.

Lemma c25_rounds : F32.c25 = F32.of_decimal 25 1.
Proof. vm_compute. reflexivity. Qed.

(** 19.5 is a binary32 value; the binary32 nearest to 19.7 is not 197/10. *)
Lemma c19_5_exact : F32.to_Q F32.c19_5 = Some (10223616, 524288)%Z /\ (10223616 * 10 = 195 * 524288)%Z.
Proof. split; vm_compute; reflexivity. Qed.

Lemma c19_7_inexact : F32.to_Q F32.c19_7 = Some (10328474, 524288)%Z /\ (10328474 * 10 <> 197 * 524288)%Z.
Proof. split; [vm_compute; reflexivity | lia]. Qed.

Lemma add_0_1_twice : F32.add (F32.add F32.c19_5 F32.c0_1) F32.c0_1 = F32.c19_7.
Proof. vm_compute. reflexivity. Qed.

(** ** Memory *)

Lemma with_heap_id w : with_heap (heap w) w = w.
Proof. destruct w; reflexivity. Qed.

Section Handlers.
Context {ext : Externals}.

Lemma NewThermoModel_present g s w p :
  Assigns s = VModel p -> NewThermoModel g s w = Ret (p, w).
Proof. intros E. unfold NewThermoModel. rewrite E. reflexivity. Qed.

Lemma NewThermoModel_absent ctx s w :
  (forall p, Assigns s <> VModel p) ->
  NewThermoModel ctx s w = Ret (length (heap w), with_heap (heap w ++ [fresh_model ctx]) w).
Proof.
  intros E. unfold NewThermoModel.
  destruct (Assigns s); try reflexivity. exfalso. eapply E. reflexivity.
Qed.

(** The model a handler works on: the one the socket holds, or a fresh one. *)
Lemma NewThermoModel_valid ctx s w :
  valid_assigns (Assigns s) w ->
  exists p hp m0,
    NewThermoModel ctx s w = Ret (p, with_heap hp w) /\
    hp !! p = Some m0 /\
    (hp = heap w \/ hp = heap w ++ [fresh_model ctx]) /\
    (forall q, Assigns s = VModel q -> q = p /\ hp = heap w).
Proof.
  intros V. destruct (Assigns s) as [|q| | | |] eqn:E.
  2:{ simpl in V. apply lookup_lt_is_Some in V as [m0 Hm].
      exists q, (heap w), m0. rewrite (NewThermoModel_present _ _ _ q E), with_heap_id.
      repeat split; auto. congruence. }
  all: exists (length (heap w)), (heap w ++ [fresh_model ctx]), (fresh_model ctx);
    rewrite NewThermoModel_absent by (intros q; rewrite E; discriminate);
    (repeat split; auto; try discriminate);
    rewrite lookup_app_r by lia; rewrite Nat.sub_diag; reflexivity.
Qed.

Ltac run_handler Hnew Hm :=
  unfold assert_string, Broadcast, Self; unfold bind, load, store, ret, emit, throw;
  rewrite Hnew; cbn [heap ec sent logs with_heap];
  repeat (first [ rewrite Hm
                | rewrite list_lookup_insert_eq by (eapply lookup_lt_Some; eassumption) ];
          cbn [heap ec sent logs with_heap]);
  try reflexivity.

Lemma tempUp_run ctx s prm w p hp m :
  NewThermoModel ctx s w = Ret (p, with_heap hp w) -> hp !! p = Some m ->
  tempUp ctx s prm w =
    Ret ((VModel p, None),
         with_heap (<[p := set_Temperature (F32.add (Temperature m) F32.c0_1) m]> hp) w).
Proof. intros Hnew Hm. unfold tempUp. run_handler Hnew Hm. Qed.

Lemma tempDown_run ctx s prm w p hp m :
  NewThermoModel ctx s w = Ret (p, with_heap hp w) -> hp !! p = Some m ->
  tempDown ctx s prm w =
    Ret ((VModel p, None),
         with_heap (<[p := set_Temperature (F32.sub (Temperature m) F32.c0_1) m]> hp) w).
Proof. intros Hnew Hm. unfold tempDown. run_handler Hnew Hm. Qed.

Lemma tempChange_run ctx s prm w p hp m :
  NewThermoModel ctx s w = Ret (p, with_heap hp w) -> hp !! p = Some m ->
  let t1 := F32.add (Temperature m) (Params_Float32 prm "temperature") in
  tempChange ctx s prm w =
    Ret ((VModel p, None),
         with_sent (sent w ++
                    [ToAll (sock_id s) "status"
                       (VString (Sprintf (Name m +:+ ": Temperature changed from %f to %f")
                                         [VFloat32 (Temperature m); VFloat32 t1]))])
           (with_heap (<[p := set_Temperature t1 m]> hp) w)).
Proof. intros Hnew Hm. unfold tempChange. run_handler Hnew Hm. Qed.

Lemma saveEvent_run ctx s prm w p hp m :
  NewThermoModel ctx s w = Ret (p, with_heap hp w) -> hp !! p = Some m ->
  saveEvent ctx s prm w =
    Ret ((VModel p, None),
         with_sent (sent w ++
                    [ToAll (sock_id s) "status"
                       (VString (Name m +:+ ": " +:+ Params_String prm "message"))])
           (with_heap hp w)).
Proof. intros Hnew Hm. unfold saveEvent. run_handler Hnew Hm. Qed.

Lemma selfStatus_run g s v w p hp m :
  NewThermoModel g s w = Ret (p, with_heap hp w) -> hp !! p = Some m ->
  selfStatus g s (VString v) w =
    Ret ((VModel p, None), with_heap (<[p := set_Status v m]> hp) w).
Proof. intros Hnew Hm. unfold selfStatus. run_handler Hnew Hm. Qed.

Lemma selfTime_run g s v w p hp m :
  NewThermoModel g s w = Ret (p, with_heap hp w) -> hp !! p = Some m ->
  selfTime g s (VString v) w =
    Ret ((VModel p, None), with_heap (<[p := set_Time v m]> hp) w).
Proof. intros Hnew Hm. unfold selfTime. run_handler Hnew Hm. Qed.

(** [NewThermoModel] returns on every socket, so the unchecked assertion is
    reached and it is the assertion that panics. *)
Lemma NewThermoModel_returns ctx s w :
  exists p w', NewThermoModel ctx s w = Ret (p, w').
Proof. unfold NewThermoModel, ret, alloc. destruct (Assigns s); eauto. Qed.

Lemma selfStatus_mismatch ctx s data w :
  is_string data = false -> selfStatus ctx s data w = Panic (TypeAssertion "string").
Proof.
  intros Hd. destruct (NewThermoModel_returns ctx s w) as (p & w' & E).
  unfold selfStatus, bind. rewrite E. destruct data; try discriminate; reflexivity.
Qed.

Lemma selfTime_mismatch ctx s data w :
  is_string data = false -> selfTime ctx s data w = Panic (TypeAssertion "string").
Proof.
  intros Hd. destruct (NewThermoModel_returns ctx s w) as (p & w' & E).
  unfold selfTime, bind. rewrite E. destruct data; try discriminate; reflexivity.
Qed.

(** A self-handler reaches its assertion unless the socket holds no model
    and the context carries no request. *)
Lemma NewThermoModel_ready g s w :
  valid_assigns (Assigns s) w ->
  has_request g || holds_model s = true ->
  exists p hp m0,
    NewThermoModel g s w = Ret (p, with_heap hp w) /\ hp !! p = Some m0.
Proof.
  intros V Hr. unfold holds_model in Hr.
  destruct (Assigns s) as [|q| | | |] eqn:E.
  2:{ simpl in V. apply lookup_lt_is_Some in V as [m0 Hm].
      exists q, (heap w), m0.
      rewrite (NewThermoModel_present g s w q E), with_heap_id. auto. }
  all: destruct g as [|c]; [discriminate Hr|];
    destruct (NewThermoModel_valid c s w) as (p & hp & m0 & Hn & Hm & _);
    [rewrite E; exact I | eauto].
Qed.

Lemma NewThermoModel_no_request s w :
  holds_model s = false -> NewThermoModel Background s w = Panic NilDereference.
Proof.
  unfold holds_model, NewThermoModel. destruct (Assigns s); try discriminate; reflexivity.
Qed.

Lemma self_mismatch_ready g s data w p w0 :
  NewThermoModel g s w = Ret (p, w0) ->
  is_string data = false ->
  selfStatus g s data w = Panic (TypeAssertion "string") /\
  selfTime g s data w = Panic (TypeAssertion "string").
Proof.
  intros E Hd. unfold selfStatus, selfTime, bind. rewrite E.
  destruct data; try discriminate; split; reflexivity.
Qed.





Lemma thermoMount_run ctx s w :
  exists p w',
    NewThermoModel ctx s
      {| heap := heap w;
         ec := ec w ++ [{| sub_topic := "go-live"; sub_owner := s; sub_ctx := ctx |}];
         sent := sent w; logs := logs w ++ ["Mounting application"] |} = Ret (p, w') /\
    thermoMount ctx s w = Ret ((VModel p, None), w').
Proof.
  destruct (NewThermoModel_returns ctx s
      {| heap := heap w;
         ec := ec w ++ [{| sub_topic := "go-live"; sub_owner := s; sub_ctx := ctx |}];
         sent := sent w; logs := logs w ++ ["Mounting application"] |}) as (p & w' & E).
  exists p, w'. split; [exact E|].
  unfold thermoMount, bind, log_Println, ec_Subscribe, ret. cbn [heap ec sent logs].
  rewrite E. reflexivity.
Qed.

(** Every message the program itself sends carries a string: the payloads
    the self-handlers assert on are strings whenever the program made them. *)
Lemma program_sends_strings ctx s prm msg w :
  valid_assigns (Assigns s) w ->
  forallb string_payload (sent w) = true ->
  (exists v w', tempChange ctx s prm w = Ret (v, w') /\
                forallb string_payload (sent w') = true) /\
  (exists v w', saveEvent ctx s prm w = Ret (v, w') /\
                forallb string_payload (sent w') = true) /\
  (exists w', goLiveCallback ctx s msg w = Ret (tt, w') /\
              forallb string_payload (sent w') = true).
Proof.
  intros V Hs.
  destruct (NewThermoModel_valid ctx s w V) as (p & hp & m & Hnew & Hm & _).
  assert (Hadd : forall d, string_payload d = true ->
                           forallb string_payload (sent w ++ [d]) = true).
  { intros d Hd. rewrite forallb_app, Hs. cbn. rewrite Hd. reflexivity. }
  repeat split.
  - do 2 eexists. split; [apply (tempChange_run _ _ _ _ _ _ _ Hnew Hm)|].
    apply Hadd. reflexivity.
  - do 2 eexists. split; [apply (saveEvent_run _ _ _ _ _ _ _ Hnew Hm)|].
    apply Hadd. reflexivity.
  - eexists. split; [reflexivity|]. apply Hadd. reflexivity.
Qed.

End Handlers.

Example mount_sock0 :
  thermoMount ctx0 sock0 world0 = Ret ((VModel 0, None), world1).
Proof. reflexivity. Qed.

(** ** The claims on the handlers *)

Section HandlerClaims.
Context {ext : Externals}.

(** C1: a socket whose model has Temperature 19.5 (the float32 of the
    constant, as [NewThermoModel] sets it) and that is dispatched [temp-up]
    twice, the returned assigns fed back in between, holds a model whose
    Temperature is the float32 of the constant 19.7: Go's [== 19.7] is true. *)
Theorem C1_temp_up_twice ctx s prm1 prm2 w p m :
  Assigns s = VModel p ->
  heap w !! p = Some m ->
  Temperature m = F32.of_decimal 195 10 ->
  exists w1 w2 m2,
    tempUp ctx s prm1 w = Ret ((VModel p, None), w1) /\
    tempUp ctx (set_Assigns (VModel p) s) prm2 w1 = Ret ((VModel p, None), w2) /\
    heap w2 !! p = Some m2 /\
    Temperature m2 = F32.of_decimal 197 10 /\
    F32.eqb (Temperature m2) F32.c19_7 = true.
Proof.
  intros Hs Hm Ht.
  pose proof (lookup_lt_Some _ _ _ Hm) as Hlt.
  set (m1 := set_Temperature (F32.add (Temperature m) F32.c0_1) m).
  set (m2 := set_Temperature (F32.add (Temperature m1) F32.c0_1) m1).
  exists (with_heap (<[p := m1]> (heap w)) w),
         (with_heap (<[p := m2]> (<[p := m1]> (heap w))) w), m2.
  assert (H1 : tempUp ctx s prm1 w = Ret ((VModel p, None), with_heap (<[p := m1]> (heap w)) w)).
  { apply tempUp_run; [|exact Hm].
    rewrite (NewThermoModel_present ctx s w p Hs), with_heap_id. reflexivity. }
  assert (H2 : tempUp ctx (set_Assigns (VModel p) s) prm2 (with_heap (<[p := m1]> (heap w)) w)
               = Ret ((VModel p, None), with_heap (<[p := m2]> (<[p := m1]> (heap w))) w)).
  { rewrite (tempUp_run ctx _ prm2 _ p (<[p := m1]> (heap w)) m1).
    - reflexivity.
    - apply NewThermoModel_present. reflexivity.
    - apply list_lookup_insert_eq. exact Hlt. }
  assert (Hv : Temperature m2 = F32.c19_7).
  { subst m2 m1. cbn [Temperature set_Temperature]. rewrite Ht, <- c19_5_rounds.
    apply add_0_1_twice. }
  split; [exact H1|]. split; [exact H2|]. split; [|split].
  - cbn [heap with_heap]. apply list_lookup_insert_eq. rewrite length_insert. exact Hlt.
  - rewrite Hv. apply c19_7_rounds.
  - rewrite Hv. reflexivity.
Qed.

(** C8: on a socket that holds a [*ThermoModel], [NewThermoModel] returns
    that pointer and leaves the memory as it is, also when it is applied
    again; on any other socket it allocates a model with Temperature 19.5,
    Status [-], empty Time and the Name of the query parameter [name]; and on
    every socket a second application, on the socket that holds the first
    result, returns the first result. *)
Theorem C8_NewThermoModel_identity ctx s w :
  (forall p, Assigns s = VModel p ->
     NewThermoModel ctx s w = Ret (p, w) /\
     NewThermoModel ctx (set_Assigns (VModel p) s) w = Ret (p, w)) /\
  ((forall p, Assigns s <> VModel p) ->
     exists w',
       NewThermoModel ctx s w = Ret (length (heap w), w') /\
       heap w' = heap w ++ [{| Name := Query_Get (URL_Query (ctx_Request ctx)) "name";
                               Temperature := F32.of_decimal 195 10;
                               Status := "-";
                               Time := "" |}] /\
       ec w' = ec w /\ sent w' = sent w /\ logs w' = logs w) /\
  (exists p w',
     NewThermoModel ctx s w = Ret (p, w') /\
     NewThermoModel ctx (set_Assigns (VModel p) s) w' = Ret (p, w')).
Proof.
  split; [|split].
  - intros p Hs. split; apply NewThermoModel_present; [exact Hs | reflexivity].
  - intros Hs. eexists. split; [apply NewThermoModel_absent; exact Hs|].
    cbn [heap ec sent logs with_heap]. unfold fresh_model. rewrite c19_5_rounds. auto.
  - destruct (NewThermoModel_returns ctx s w) as (p & w' & E).
    exists p, w'. split; [exact E|]. apply NewThermoModel_present. reflexivity.
Qed.



(** C3 as amended: when the socket holds its model or the context carries
    the request, a string payload makes the [status] and [time] self-handlers
    return the model with that Status, respectively Time, and the error
    [nil], and a payload of any other dynamic type makes them panic at the
    unchecked type assertion.  When the socket holds no model and the context
    carries no request, as when a broadcast is delivered, they panic in
    [NewThermoModel] whatever the payload is.  No payload makes them return
    an error. *)
Theorem C3_self_handlers_payload g s data w :
  valid_assigns (Assigns s) w ->
  if has_request g || holds_model s then
    match data with
    | VString v =>
        (exists p w' m, selfStatus g s data w = Ret ((VModel p, None), w') /\
                        heap w' !! p = Some m /\ Status m = v) /\
        (exists p w' m, selfTime g s data w = Ret ((VModel p, None), w') /\
                        heap w' !! p = Some m /\ Time m = v)
    | _ =>
        selfStatus g s data w = Panic (TypeAssertion "string") /\
        selfTime g s data w = Panic (TypeAssertion "string")
    end
  else
    selfStatus g s data w = Panic NilDereference /\
    selfTime g s data w = Panic NilDereference.
Proof.
  intros V. destruct (has_request g || holds_model s) eqn:R.
  - destruct (NewThermoModel_ready g s w V R) as (p & hp & m & Hnew & Hm).
    pose proof (lookup_lt_Some _ _ _ Hm) as Hlt.
    destruct data as [| | v | | |];
      try (apply (self_mismatch_ready g s _ w p _ Hnew); reflexivity).
    split.
    + exists p, (with_heap (<[p := set_Status v m]> hp) w), (set_Status v m).
      split; [apply (selfStatus_run _ _ _ _ _ _ _ Hnew Hm)|].
      split; [apply list_lookup_insert_eq; exact Hlt | reflexivity].
    + exists p, (with_heap (<[p := set_Time v m]> hp) w), (set_Time v m).
      split; [apply (selfTime_run _ _ _ _ _ _ _ Hnew Hm)|].
      split; [apply list_lookup_insert_eq; exact Hlt | reflexivity].
  - apply orb_false_iff in R as [Rg Rs]. destruct g; [|discriminate Rg].
    unfold selfStatus, selfTime, bind.
    rewrite (NewThermoModel_no_request s w Rs). auto.
Qed.

End HandlerClaims.

(** ** Rendering *)

Section RenderClaims.
Context {ext : Externals}.

(** The template of the program executes on every model. *)
Lemma thermo_template_executes m :
  exists out, exec_nodes m thermo_template = Some out.
Proof.
  unfold thermo_template. cbn [exec_nodes exec_node eval_gt].
  destruct (F32.leb (Temperature m) F32.c25); eexists; reflexivity.
Qed.

Lemma render_model ctx d w p m :
  rc_Assigns d = VModel p -> heap w !! p = Some m ->
  exists out, exec_nodes m thermo_template = Some out /\
              render ctx d w = Ret (Rendered out, w).
Proof.
  intros Hd Hm. destruct (thermo_template_executes m) as [out Hout].
  exists out. split; [exact Hout|].
  unfold render. rewrite Hd, Hm, Hout. reflexivity.
Qed.

(** [render] returns on every input and leaves the process state alone. *)
Lemma render_pure ctx d w : exists r, render ctx d w = Ret (r, w).
Proof.
  unfold render. destruct (rc_Assigns d); eauto.
  destruct (heap w !! p); eauto.
  destruct (exec_nodes t thermo_template); eauto.
Qed.

(** C4: two invocations of [render] whose assigns point to equal models give
    the same output, whatever the context, the rest of the render context and
    the rest of the process state are; [render] changes nothing, so invoking
    it twice in a row returns the same output twice. *)
Theorem C4_render_deterministic ctx1 ctx2 d1 d2 w1 w2 p1 p2 m :
  rc_Assigns d1 = VModel p1 -> heap w1 !! p1 = Some m ->
  rc_Assigns d2 = VModel p2 -> heap w2 !! p2 = Some m ->
  exists out,
    render ctx1 d1 w1 = Ret (Rendered out, w1) /\
    render ctx2 d2 w2 = Ret (Rendered out, w2) /\
    (r1 <~ render ctx1 d1 ;; r2 <~ render ctx1 d1 ;; ret (r1, r2)) w1
      = Ret ((Rendered out, Rendered out), w1).
Proof.
  intros Hd1 Hm1 Hd2 Hm2.
  destruct (render_model ctx1 d1 w1 p1 m Hd1 Hm1) as (out & Hout & H1).
  destruct (render_model ctx2 d2 w2 p2 m Hd2 Hm2) as (out' & Hout' & H2).
  assert (out' = out) by congruence. subst out'.
  exists out. split; [exact H1|]. split; [exact H2|].
  unfold bind. rewrite H1, H1. reflexivity.
Qed.

End RenderClaims.

(** ** The event registry and the socket loop *)

Section EngineClaims.
Context {ext : Externals}.

Lemma main_eventHandlers name :
  eventHandlers main !! name =
    if decide ("save" = name) then Some saveEvent
    else if decide ("temp-change" = name) then Some tempChange
    else if decide ("temp-down" = name) then Some tempDown
    else if decide ("temp-up" = name) then Some tempUp
    else None.
Proof.
  unfold main, HandleSelf, HandleEvent, HandleMount, HandleRender, NewHandler.
  cbn [eventHandlers]. rewrite !lookup_insert, lookup_empty. reflexivity.
Qed.

Lemma main_unregistered name :
  name ∉ ["temp-up"; "temp-down"; "temp-change"; "save"] ->
  eventHandlers main !! name = None.
Proof.
  intros Hn. rewrite main_eventHandlers.
  repeat case_decide; try reflexivity; subst name; exfalso; apply Hn; set_solver.
Qed.

Lemma main_renderHandler : renderHandler main = Some render.
Proof. reflexivity. Qed.

Lemma main_mountHandler : mountHandler main = Some thermoMount.
Proof. reflexivity. Qed.

(** The render cycle touches the outbox and the diagnostics only. *)
Lemma render_cycle_main ctx c w :
  exists c', render_cycle main ctx c w = Ret (c', w) /\
             socket c' = socket c /\ inbox c' = inbox c /\ phase c' = phase c /\
             subscriptions c' = subscriptions c.
Proof.
  unfold render_cycle. rewrite main_renderHandler. unfold bind.
  destruct (render_pure ctx {| rc_Socket := socket c; rc_Assigns := Assigns (socket c) |} w)
    as [r Hr].
  rewrite Hr. destruct r; eexists; (split; [reflexivity|]); auto.
Qed.

(** Dispatch is the handler function of the event, on the socket. *)
Lemma dispatch_main ctx c e w :
  match handler_fn main ctx e (socket c) w with
  | Ret (s', w') =>
      exists c', dispatch main ctx c e w = Ret (c', w') /\
                 socket c' = s' /\ inbox c' = inbox c /\ phase c' = phase c
  | Panic p => dispatch main ctx c e w = Panic p
  end.
Proof.
  unfold handler_fn, dispatch.
  destruct (eventHandlers main !! ev_name e) as [f|].
  - unfold bind. destruct (f ctx (socket c) (ev_params e) w) as [[[v [err|]] w']|pn].
    + unfold ret. eexists. split; [reflexivity|]. auto.
    + destruct (render_cycle_main ctx (with_socket (set_Assigns v (socket c)) c) w')
        as (c' & Hc & Hs & Hi & Hp & _).
      unfold ret. exists c'. rewrite Hc. auto.
    + reflexivity.
  - unfold ret. eexists. split; [reflexivity|]. auto.
Qed.

(** Every handler function returns on a valid socket, with a valid socket. *)
Lemma handler_fn_valid ctx e s w :
  valid_assigns (Assigns s) w ->
  exists s' w', handler_fn main ctx e s w = Ret (s', w') /\
                valid_assigns (Assigns s') w'.
Proof.
  intros V. unfold handler_fn. rewrite main_eventHandlers.
  destruct (NewThermoModel_valid ctx s w V) as (p & hp & m & Hnew & Hm & _).
  pose proof (lookup_lt_Some _ _ _ Hm) as Hlt.
  repeat case_decide; unfold bind, ret.
  - rewrite (saveEvent_run _ _ _ _ _ _ _ Hnew Hm). do 2 eexists. split; [reflexivity|].
    cbn. exact Hlt.
  - rewrite (tempChange_run _ _ _ _ _ _ _ Hnew Hm). do 2 eexists. split; [reflexivity|].
    cbn. rewrite length_insert. exact Hlt.
  - rewrite (tempDown_run _ _ _ _ _ _ _ Hnew Hm). do 2 eexists. split; [reflexivity|].
    cbn. rewrite length_insert. exact Hlt.
  - rewrite (tempUp_run _ _ _ _ _ _ _ Hnew Hm). do 2 eexists. split; [reflexivity|].
    cbn. rewrite length_insert. exact Hlt.
  - do 2 eexists. split; [reflexivity|]. exact V.
Qed.

Lemma with_inbox_same c : with_inbox (inbox c) c = c.
Proof. destruct c; reflexivity. Qed.

Lemma run_events ctx evs :
  forall c w,
    phase c = Active ->
    inbox c = map MEvent evs ->
    valid_assigns (Assigns (socket c)) w ->
    exists c' w',
      run (length evs) main ctx c w = Ret (c', w') /\
      fold_left (fold_step main ctx) evs (Ret (socket c, w)) = Ret (socket c', w') /\
      inbox c' = [] /\ phase c' = Active.
Proof.
  induction evs as [|e evs IH]; intros c w Hp Hi V.
  - exists c, w. cbn. auto.
  - cbn [length run fold_left fold_step map] in *.
    unfold bind at 1. unfold step. rewrite Hp, Hi.
    destruct (handler_fn_valid ctx e (socket c) w V) as (s1 & w1 & Hf & V1).
    pose proof (dispatch_main ctx (with_inbox (map MEvent evs) c) e w) as Hd.
    cbn [socket with_inbox] in Hd. rewrite Hf in Hd.
    destruct Hd as (c1 & Hd & Hs1 & Hi1 & Hp1).
    rewrite Hd, Hf. subst s1.
    apply IH; [rewrite Hp1; exact Hp | exact Hi1 | exact V1].
Qed.

(** C2: the events that arrive at an Active socket with an empty queue are
    all dispatched, in arrival order, and the socket ends up with the assigns
    (and the process with the state) the left fold of the registered handler
    functions computes from the initial socket state. *)
Theorem C2_events_left_fold ctx c w evs :
  phase c = Active ->
  inbox c = [] ->
  valid_assigns (Assigns (socket c)) w ->
  exists c' w',
    run (length evs) main ctx (enqueue (map MEvent evs) c) w = Ret (c', w') /\
    fold_left (fold_step main ctx) evs (Ret (socket c, w)) = Ret (socket c', w') /\
    inbox c' = [] /\ phase c' = Active.
Proof.
  intros Hp Hi V.
  apply (run_events ctx evs (enqueue (map MEvent evs) c) w).
  - exact Hp.
  - unfold enqueue. cbn [inbox with_inbox]. rewrite Hi. reflexivity.
  - exact V.
Qed.

(** C5: an Active socket whose oldest message is an event with a name other
    than [temp-up], [temp-down], [temp-change] and [save] takes it off the
    queue, keeps its socket and assigns, its outbox and the process state as
    they are, surfaces [UnknownEvent] and stays Active. *)
Theorem C5_unknown_event ctx c e rest w :
  phase c = Active ->
  inbox c = MEvent e :: rest ->
  ev_name e ∉ ["temp-up"; "temp-down"; "temp-change"; "save"] ->
  exists c',
    step main ctx c w = Ret (c', w) /\
    socket c' = socket c /\
    phase c' = Active /\
    inbox c' = rest /\
    outbox c' = outbox c /\
    diagnostics c' = diagnostics c ++ [UnknownEvent (ev_name e)].
Proof.
  intros Hp Hi Hn. unfold step. rewrite Hp, Hi. unfold dispatch.
  rewrite (main_unregistered _ Hn).
  eexists. split; [reflexivity|]. cbn. auto.
Qed.

End EngineClaims.

(** ** The pub/sub bridge and the lifecycle *)

Section BridgeClaims.
Context {ext : Externals}.

Lemma bridge_fold_malformed raw subs :
  JSON_Decode raw = None ->
  forall w ds,
    fold_left (bridge_one raw) subs (Ret (tt, w), ds)
    = (Ret (tt, w), ds ++ map (fun sub => DecodeFailure (sub_topic sub)) subs).
Proof.
  intros Hd. induction subs as [|sub subs IH]; intros w ds; cbn [fold_left map].
  - rewrite app_nil_r. reflexivity.
  - unfold bridge_one at 2. rewrite Hd, IH, <- app_assoc. reflexivity.
Qed.

Lemma bridge_fold_decoded raw msg subs :
  JSON_Decode raw = Some msg ->
  forall w ds,
    fold_left (bridge_one raw) subs (Ret (tt, w), ds)
    = (Ret (tt, with_sent (sent w ++ map (status_of msg) subs) w), ds).
Proof.
  intros Hd. induction subs as [|sub subs IH]; intros w ds; cbn [fold_left map].
  - rewrite app_nil_r. destruct w; reflexivity.
  - unfold bridge_one at 2. rewrite Hd.
    unfold goLiveCallback, Self, emit. rewrite IH.
    cbn [heap ec sent logs with_sent]. rewrite <- app_assoc. reflexivity.
Qed.

(** C6: a payload that does not decode into a [NatsMessage], delivered on
    [go-live] while a subscription on that topic exists, is dropped: the
    bridge returns, every connection (its socket and assigns included) and
    the whole process state stay as they are, nothing is sent to any socket,
    and a decode-failure diagnostic is recorded. *)
Theorem C6_malformed_external_message srv raw sub :
  JSON_Decode raw = None ->
  sub ∈ ec (world srv) ->
  sub_topic sub = "go-live" ->
  exists srv',
    bridge_deliver "go-live" raw srv = Ret srv' /\
    conns srv' = conns srv /\
    world srv' = world srv /\
    conns (route srv') = conns (route srv) /\
    DecodeFailure "go-live" ∈ bridge_diagnostics srv'.
Proof.
  intros Hd Hin Ht. unfold bridge_deliver.
  rewrite (bridge_fold_malformed raw _ Hd). eexists. split; [reflexivity|].
  cbn [conns world bridge_diagnostics]. repeat split.
  rewrite app_nil_l. apply elem_of_app. right.
  rewrite <- Ht. apply (list_elem_of_fmap_2 (fun sub => DecodeFailure (sub_topic sub))).
  apply list_elem_of_In, filter_In. split; [apply list_elem_of_In; exact Hin|].
  unfold on_topic. rewrite Ht. reflexivity.
Qed.

Lemma connect_main ctx session srv :
  exists c,
    connect main ctx session srv =
      Ret {| conns := <[next_id srv := c]> (conns srv);
             next_id := S (next_id srv);
             world := {| heap := heap (world srv) ++ [fresh_model ctx];
                         ec := ec (world srv) ++ [go_live ctx (new_socket srv session)];
                         sent := sent (world srv);
                         logs := logs (world srv) ++ ["Mounting application"] |};
             bridge_diagnostics := bridge_diagnostics srv |} /\
    phase c = Active /\
    subscriptions c = [] /\
    socket c = set_Assigns (VModel (length (heap (world srv)))) (new_socket srv session).
Proof.
  unfold connect. rewrite main_mountHandler.
  unfold thermoMount, bind, log_Println, ec_Subscribe, NewThermoModel, alloc, ret.
  cbn [Assigns heap ec sent logs].
  match goal with
  | |- context [render_cycle main ctx ?c1 ?w1] =>
      destruct (render_cycle_main ctx c1 w1) as (c2 & Hr & Hs & _ & _ & Hsub); rewrite Hr
  end.
  exists (with_phase Active c2). split; [reflexivity|].
  cbn [phase with_phase subscriptions socket]. rewrite Hs, Hsub. auto.
Qed.

Lemma unsubscribe_all_untracked sid subs : unsubscribe_all sid [] subs = subs.
Proof.
  unfold unsubscribe_all. induction subs as [|sub subs IH]; [reflexivity|].
  cbn [List.filter]. unfold tracked at 1.
  rewrite (bool_decide_eq_false_2 (sub_topic sub ∈ [])) by apply not_elem_of_nil.
  rewrite andb_false_r. cbn [negb]. rewrite IH. reflexivity.
Qed.

(** A connection that is mounted and then disconnected leaves its
    subscription behind. *)
Lemma disconnect_after_connect ctx session srv :
  exists srv1,
    connect main ctx session srv = Ret srv1 /\
    let sid := next_id srv in
    let srv2 := disconnect sid srv1 in
    (exists c, conns srv2 !! sid = Some c /\ phase c = Closed) /\
    ec (world srv2) = ec (world srv) ++ [go_live ctx (new_socket srv session)] /\
    disconnect sid srv2 = srv2 /\
    (forall raw msg,
       JSON_Decode raw = Some msg ->
       exists srv3,
         bridge_deliver "go-live" raw srv2 = Ret srv3 /\
         ToSelf ctx sid "status" (VString ("Nats message: " +:+ FormatRFC1123 (nm_Value msg)))
           ∈ sent (world srv3)).
Proof.
  destruct (connect_main ctx session srv) as (c & Hc & Hp & Hsub & Hs).
  eexists. split; [exact Hc|]. cbn zeta.
  assert (Hd : disconnect (next_id srv)
                 {| conns := <[next_id srv := c]> (conns srv);
                    next_id := S (next_id srv);
                    world := {| heap := heap (world srv) ++ [fresh_model ctx];
                                ec := ec (world srv) ++ [go_live ctx (new_socket srv session)];
                                sent := sent (world srv);
                                logs := logs (world srv) ++ ["Mounting application"] |};
                    bridge_diagnostics := bridge_diagnostics srv |}
               = {| conns := <[next_id srv := with_phase Closed (with_inbox [] c)]> (conns srv);
                    next_id := S (next_id srv);
                    world := {| heap := heap (world srv) ++ [fresh_model ctx];
                                ec := ec (world srv) ++ [go_live ctx (new_socket srv session)];
                                sent := sent (world srv);
                                logs := logs (world srv) ++ ["Mounting application"] |};
                    bridge_diagnostics := bridge_diagnostics srv |}).
  { unfold disconnect. cbn [conns world next_id bridge_diagnostics heap ec sent logs].
    rewrite lookup_insert_eq, Hp, Hsub, unsubscribe_all_untracked, insert_insert_eq.
    reflexivity. }
  rewrite Hd. split; [|split; [|split]].
  - eexists. cbn [conns]. rewrite lookup_insert_eq. split; reflexivity.
  - reflexivity.
  - unfold disconnect. cbn [conns]. rewrite lookup_insert_eq. reflexivity.
  - intros raw msg Hm. unfold bridge_deliver.
    rewrite (bridge_fold_decoded raw msg _ Hm). eexists. split; [reflexivity|].
    cbn [world sent with_sent ec]. apply elem_of_app. right.
    change (ToSelf ctx (next_id srv) "status"
              (VString ("Nats message: " +:+ FormatRFC1123 (nm_Value msg))))
      with (status_of msg (go_live ctx (new_socket srv session))).
    apply list_elem_of_fmap_2, list_elem_of_In, filter_In. split.
    + apply in_or_app. right. left. reflexivity.
    + reflexivity.
Qed.

(** C7 as amended: the subscription on [go-live] that [thermoMount] makes is
    never torn down.  The program drops its handle, the socket tracks no
    subscription, and after the socket is disconnected and Closed the
    subscription is still on [ec], a second disconnect changes nothing, and
    every decodable message delivered on [go-live] still runs the callback
    for the closed socket. *)
Theorem C7_subscription_outlives_socket ctx session srv :
  exists srv1,
    connect main ctx session srv = Ret srv1 /\
    let sid := next_id srv in
    let srv2 := disconnect sid srv1 in
    (exists c, conns srv2 !! sid = Some c /\ phase c = Closed) /\
    ec (world srv2) = ec (world srv) ++ [go_live ctx (new_socket srv session)] /\
    disconnect sid srv2 = srv2 /\
    (forall raw msg,
       JSON_Decode raw = Some msg ->
       exists srv3,
         bridge_deliver "go-live" raw srv2 = Ret srv3 /\
         ToSelf ctx sid "status" (VString ("Nats message: " +:+ FormatRFC1123 (nm_Value msg)))
           ∈ sent (world srv3)).
Proof. exact (disconnect_after_connect ctx session srv). Qed.

End BridgeClaims.

(** ** The claims at the sample inputs *)

Section Samples.
#[local] Existing Instance plain_externals.

(** The scenario on the engine: mount on the empty server, then two
    [temp-up] events through the loop. *)
Example connect_server0 :
  match connect main ctx0 "s0" server0 with
  | Ret srv => world srv = world1 /\ (socket <$> conns srv !! 0) = Some sock1
  | Panic _ => False
  end.
Proof. vm_compute. split; reflexivity. Qed.

Example engine_temp_up_twice :
  match run 2 main ctx0 (enqueue (map MEvent [temp_up; temp_up]) conn1) world1 with
  | Ret (c, w) =>
      Assigns (socket c) = VModel 0 /\
      (Temperature <$> heap w !! 0) = Some F32.c19_7 /\
      length (outbox c) = 2
  | Panic _ => False
  end.
Proof. vm_compute. repeat split; reflexivity. Qed.

(** The engine of the model does not recover a panic of a handler. *)
Example self_dispatch_panics :
  dispatch_self main ctx0 Background conn1 "status" (VInt 3) world1
    = Panic (TypeAssertion "string").
Proof. vm_compute. reflexivity. Qed.

Lemma C1_temp_up_twice_witness :
  Assigns sock1 = VModel 0 /\
  heap world1 !! 0 = Some (fresh_model ctx0) /\
  Temperature (fresh_model ctx0) = F32.of_decimal 195 10 /\
  exists w1 w2 m2,
    tempUp ctx0 sock1 ∅ world1 = Ret ((VModel 0, None), w1) /\
    tempUp ctx0 (set_Assigns (VModel 0) sock1) ∅ w1 = Ret ((VModel 0, None), w2) /\
    heap w2 !! 0 = Some m2 /\
    Temperature m2 = F32.of_decimal 197 10 /\
    F32.eqb (Temperature m2) F32.c19_7 = true.
Proof.
  split; [reflexivity|]. split; [reflexivity|]. split; [vm_compute; reflexivity|].
  apply (C1_temp_up_twice ctx0 sock1 ∅ ∅ world1 0 (fresh_model ctx0));
    [reflexivity | reflexivity | vm_compute; reflexivity].
Defined.

Lemma C2_events_left_fold_witness :
  phase conn1 = Active /\
  inbox conn1 = [] /\
  valid_assigns (Assigns (socket conn1)) world1 /\
  exists c' w',
    run 3 main ctx0 (enqueue (map MEvent [temp_up; frobulate; temp_up]) conn1) world1
      = Ret (c', w') /\
    fold_left (fold_step main ctx0) [temp_up; frobulate; temp_up] (Ret (socket conn1, world1))
      = Ret (socket c', w') /\
    inbox c' = [] /\ phase c' = Active.
Proof.
  split; [reflexivity|]. split; [reflexivity|].
  split; [simpl; lia|].
  apply (C2_events_left_fold ctx0 conn1 world1 [temp_up; frobulate; temp_up]);
    [reflexivity | reflexivity | simpl; lia].
Defined.

Lemma C3_self_handlers_payload_witness :
  valid_assigns (Assigns sock1) world1 /\
  valid_assigns (Assigns sock0) world0 /\
  (selfStatus Background sock1 (VInt 7) world1 = Panic (TypeAssertion "string") /\
   selfTime Background sock1 (VInt 7) world1 = Panic (TypeAssertion "string")) /\
  (selfStatus Background sock0 (VString "ok") world0 = Panic NilDereference /\
   selfTime Background sock0 (VString "ok") world0 = Panic NilDereference).
Proof.
  split; [simpl; lia|]. split; [exact I|]. split.
  - apply (C3_self_handlers_payload Background sock1 (VInt 7) world1). simpl; lia.
  - apply (C3_self_handlers_payload Background sock0 (VString "ok") world0). exact I.
Defined.

(** C3 as stated fails: the payload [7] of dynamic type [int] makes neither
    self-handler return an error, both panic. *)
Lemma C3_payload_decode_error_counterexample :
  is_string (VInt 7) = false /\
  selfStatus ctx0 sock1 (VInt 7) world1 = Panic (TypeAssertion "string") /\
  selfTime ctx0 sock1 (VInt 7) world1 = Panic (TypeAssertion "string") /\
  ~ (exists v e w', selfStatus ctx0 sock1 (VInt 7) world1 = Ret ((v, Some e), w')) /\
  ~ (exists v e w', selfTime ctx0 sock1 (VInt 7) world1 = Ret ((v, Some e), w')).
Proof.
  split; [reflexivity|].
  rewrite (selfStatus_mismatch ctx0 sock1 (VInt 7) world1 eq_refl).
  rewrite (selfTime_mismatch ctx0 sock1 (VInt 7) world1 eq_refl).
  repeat split; try (intros (v & e & w' & H); discriminate H).
Qed.

Lemma C4_render_deterministic_witness :
  rc_Assigns view1 = VModel 0 /\
  heap world1 !! 0 = Some (fresh_model ctx0) /\
  exists out,
    render ctx0 view1 world1 = Ret (Rendered out, world1) /\
    render ctx0 view1 world1 = Ret (Rendered out, world1) /\
    (r1 <~ render ctx0 view1 ;; r2 <~ render ctx0 view1 ;; ret (r1, r2)) world1
      = Ret ((Rendered out, Rendered out), world1).
Proof.
  split; [reflexivity|]. split; [reflexivity|].
  apply (C4_render_deterministic ctx0 ctx0 view1 view1 world1 world1 0 0 (fresh_model ctx0));
    reflexivity.
Defined.

Lemma C5_unknown_event_witness :
  phase (enqueue [MEvent frobulate] conn1) = Active /\
  inbox (enqueue [MEvent frobulate] conn1) = [MEvent frobulate] /\
  (ev_name frobulate ∉ ["temp-up"; "temp-down"; "temp-change"; "save"]) /\
  exists c',
    step main ctx0 (enqueue [MEvent frobulate] conn1) world1 = Ret (c', world1) /\
    socket c' = socket (enqueue [MEvent frobulate] conn1) /\
    phase c' = Active /\
    inbox c' = [] /\
    outbox c' = outbox (enqueue [MEvent frobulate] conn1) /\
    diagnostics c' = diagnostics (enqueue [MEvent frobulate] conn1)
                     ++ [UnknownEvent (ev_name frobulate)].
Proof.
  assert (Hn : ev_name frobulate ∉ ["temp-up"; "temp-down"; "temp-change"; "save"]).
  { apply (bool_decide_unpack _). vm_compute. reflexivity. }
  split; [reflexivity|]. split; [reflexivity|]. split; [exact Hn|].
  apply (C5_unknown_event ctx0 (enqueue [MEvent frobulate] conn1) frobulate [] world1);
    [reflexivity | reflexivity | exact Hn].
Defined.

Lemma C6_malformed_external_message_witness :
  JSON_Decode "{" = None /\
  go_live ctx0 sock0 ∈ ec (world server1) /\
  sub_topic (go_live ctx0 sock0) = "go-live" /\
  exists srv',
    bridge_deliver "go-live" "{" server1 = Ret srv' /\
    conns srv' = conns server1 /\
    world srv' = world server1 /\
    conns (route srv') = conns (route server1) /\
    DecodeFailure "go-live" ∈ bridge_diagnostics srv'.
Proof.
  assert (Hin : go_live ctx0 sock0 ∈ ec (world server1)).
  { simpl. apply list_elem_of_here. }
  split; [reflexivity|]. split; [exact Hin|]. split; [reflexivity|].
  apply (C6_malformed_external_message server1 "{" (go_live ctx0 sock0));
    [reflexivity | exact Hin | reflexivity].
Defined.

(** C7 as stated fails: the socket mounted on the empty server and then
    disconnected is Closed, and its subscription is still on [ec]. *)
Lemma C7_teardown_counterexample :
  exists srv1,
    connect main ctx0 "s0" server0 = Ret srv1 /\
    (exists c, conns (disconnect 0 srv1) !! 0 = Some c /\ phase c = Closed) /\
    ec (world (disconnect 0 srv1)) = [go_live ctx0 sock0] /\
    go_live ctx0 sock0 ∈ ec (world (disconnect 0 srv1)) /\
    sub_owner (go_live ctx0 sock0) = sock0 /\ sock_id sock0 = 0.
Proof.
  destruct (disconnect_after_connect ctx0 "s0" server0) as (srv1 & Hc & Hclosed & Hec & _).
  exists srv1. split; [exact Hc|]. cbn zeta in Hclosed, Hec.
  change (next_id server0) with 0 in Hclosed, Hec.
  split; [exact Hclosed|]. rewrite Hec.
  split; [reflexivity|]. split; [apply list_elem_of_here|]. split; reflexivity.
Qed.

Lemma C7_subscription_outlives_socket_witness :
  exists srv1,
    connect main ctx0 "s0" server0 = Ret srv1 /\
    ec (world (disconnect 0 srv1)) = [go_live ctx0 sock0].
Proof.
  destruct (C7_subscription_outlives_socket ctx0 "s0" server0) as (srv1 & Hc & _ & Hec & _).
  exists srv1. split; [exact Hc | exact Hec].
Defined.

Lemma C8_NewThermoModel_identity_witness :
  Assigns sock1 = VModel 0 /\
  NewThermoModel ctx0 sock1 world1 = Ret (0, world1) /\
  NewThermoModel ctx0 (set_Assigns (VModel 0) sock1) world1 = Ret (0, world1).
Proof.
  split; [reflexivity|].
  apply (proj1 (C8_NewThermoModel_identity ctx0 sock1 world1) 0). reflexivity.
Defined.




End Samples.

(** * Further properties of the program *)

(** ** Sequences of events on a socket that holds its model *)

Section Sequences.
Context {ext : Externals}.

Lemma set_Assigns_same s p : Assigns s = VModel p -> set_Assigns (VModel p) s = s.
Proof. destruct s as [i n a]. cbn. intros ->. reflexivity. Qed.

Lemma world_same w p m ds :
  heap w !! p = Some m -> ds = [] ->
  with_sent (sent w ++ ds) (with_heap (<[p := m]> (heap w)) w) = w.
Proof.
  intros Hm ->. unfold with_sent, with_heap. cbn [heap ec sent logs].
  rewrite app_nil_r, list_insert_id by exact Hm. destruct w; reflexivity.
Qed.

Ltac finish_step :=
  repeat match goal with H : _ = ev_name _ |- _ => rewrite <- H end;
  cbn; rewrite ?Nat.eqb_refl; cbn; auto.

(** One event: the socket is the same, the model changes at most in its
    Temperature, and at most one message is sent. *)
Lemma handler_fn_step ctx e s w p m :
  Assigns s = VModel p -> heap w !! p = Some m ->
  exists m' ds,
    handler_fn main ctx e s w
      = Ret (s, with_sent (sent w ++ ds) (with_heap (<[p := m']> (heap w)) w)) /\
    Name m' = Name m /\ Status m' = Status m /\ Time m' = Time m /\
    length ds = (if broadcasting e then 1 else 0) /\
    forallb (status_broadcast (sock_id s)) ds = true.
Proof.
  intros Hs Hm.
  assert (Hnew : NewThermoModel ctx s w = Ret (p, with_heap (heap w) w)).
  { rewrite with_heap_id. apply NewThermoModel_present. exact Hs. }
  unfold handler_fn, broadcasting. rewrite main_eventHandlers.
  repeat case_decide; unfold bind, ret.
  - rewrite (saveEvent_run _ _ _ _ _ _ _ Hnew Hm), (set_Assigns_same _ _ Hs).
    exists m. eexists. split.
    { rewrite <- (list_insert_id (heap w) p m Hm) at 1. reflexivity. }
    finish_step.
  - rewrite (tempChange_run _ _ _ _ _ _ _ Hnew Hm), (set_Assigns_same _ _ Hs).
    do 2 eexists. split; [reflexivity|]. finish_step.
  - rewrite (tempDown_run _ _ _ _ _ _ _ Hnew Hm), (set_Assigns_same _ _ Hs).
    eexists. exists []. split.
    { unfold with_sent. cbn [heap ec sent logs with_heap]. rewrite app_nil_r. reflexivity. }
    finish_step.
  - rewrite (tempUp_run _ _ _ _ _ _ _ Hnew Hm), (set_Assigns_same _ _ Hs).
    eexists. exists []. split.
    { unfold with_sent. cbn [heap ec sent logs with_heap]. rewrite app_nil_r. reflexivity. }
    finish_step.
  - exists m, []. split.
    { rewrite world_same by auto. reflexivity. }
    assert (String.eqb (ev_name e) "temp-change" = false) as ->
      by (apply String.eqb_neq; congruence).
    assert (String.eqb (ev_name e) "save" = false) as ->
      by (apply String.eqb_neq; congruence).
    cbn. auto.
Qed.

Lemma events_on_model ctx evs :
  forall s w p m,
    Assigns s = VModel p -> heap w !! p = Some m ->
    exists m' ds,
      fold_left (fold_step main ctx) evs (Ret (s, w))
        = Ret (s, with_sent (sent w ++ ds) (with_heap (<[p := m']> (heap w)) w)) /\
      Name m' = Name m /\ Status m' = Status m /\ Time m' = Time m /\
      length ds = length (List.filter broadcasting evs) /\
      forallb (status_broadcast (sock_id s)) ds = true.
Proof.
  induction evs as [|e evs IH]; intros s w p m Hs Hm.
  - exists m, []. cbn [fold_left]. rewrite world_same by auto. repeat split; reflexivity.
  - cbn [fold_left fold_step].
    destruct (handler_fn_step ctx e s w p m Hs Hm)
      as (m1 & ds1 & Hf & Hn1 & Hst1 & Ht1 & Hl1 & Hb1).
    rewrite Hf.
    pose proof (lookup_lt_Some _ _ _ Hm) as Hlt.
    set (w1 := with_sent (sent w ++ ds1) (with_heap (<[p := m1]> (heap w)) w)).
    assert (Hm1 : heap w1 !! p = Some m1).
    { subst w1. cbn [heap with_sent with_heap]. apply list_lookup_insert_eq. exact Hlt. }
    destruct (IH s w1 p m1 Hs Hm1) as (m2 & ds2 & Hf2 & Hn2 & Hst2 & Ht2 & Hl2 & Hb2).
    exists m2, (ds1 ++ ds2). split.
    { rewrite Hf2. subst w1. unfold with_sent, with_heap. cbn [heap ec sent logs].
      rewrite list_insert_insert_eq, <- app_assoc. reflexivity. }
    split; [congruence|]. split; [congruence|]. split; [congruence|]. split.
    + rewrite length_app, Hl1, Hl2. cbn [List.filter].
      destruct (broadcasting e); reflexivity.
    + rewrite forallb_app, Hb1, Hb2. reflexivity.
Qed.

(** X1: a sequence of events none of which broadcasts ([temp-up],
    [temp-down] and unregistered names) changes nothing but the Temperature
    of the socket's own model: the socket keeps its pointer, its model keeps
    Name, Status and Time, every other model keeps its value, and no
    subscription, message or log line is added. *)
Theorem quiet_events_keep_the_rest ctx evs s w p m :
  Assigns s = VModel p ->
  heap w !! p = Some m ->
  List.filter broadcasting evs = [] ->
  exists t,
    fold_left (fold_step main ctx) evs (Ret (s, w))
      = Ret (s, with_heap (<[p := {| Name := Name m; Temperature := t;
                                     Status := Status m; Time := Time m |}]> (heap w)) w).
Proof.
  intros Hs Hm Hq.
  destruct (events_on_model ctx evs s w p m Hs Hm)
    as (m' & ds & Hf & Hn & Hst & Ht & Hl & _).
  rewrite Hq in Hl. destruct ds; [|discriminate Hl].
  exists (Temperature m'). rewrite Hf, <- Hn, <- Hst, <- Ht.
  unfold with_sent, with_heap. cbn [heap ec sent logs]. rewrite app_nil_r.
  destruct m'; reflexivity.
Qed.

(** X2: no sequence of events, with whatever names and parameters, changes
    the Name or the Time of the socket's model, moves the model to another
    pointer, allocates, subscribes or logs. *)
Theorem events_keep_name_and_time ctx evs s w p m :
  Assigns s = VModel p ->
  heap w !! p = Some m ->
  exists w' m',
    fold_left (fold_step main ctx) evs (Ret (s, w)) = Ret (s, w') /\
    heap w' !! p = Some m' /\
    Name m' = Name m /\ Time m' = Time m /\
    length (heap w') = length (heap w) /\
    ec w' = ec w /\ logs w' = logs w.
Proof.
  intros Hs Hm.
  destruct (events_on_model ctx evs s w p m Hs Hm) as (m' & ds & Hf & Hn & _ & Ht & _).
  exists (with_sent (sent w ++ ds) (with_heap (<[p := m']> (heap w)) w)), m'.
  split; [exact Hf|]. cbn [heap ec logs with_sent with_heap].
  split; [apply list_lookup_insert_eq; eapply lookup_lt_Some; exact Hm|].
  split; [exact Hn|]. split; [exact Ht|]. split; [apply length_insert|]. auto.
Qed.

(** X3: a sequence of events sends exactly one message per [temp-change]
    and per [save] event and none for any other event; each is a broadcast
    of a string on [status] by the socket itself, appended to what was sent
    before. *)
Theorem events_broadcast_count ctx evs s w p m :
  Assigns s = VModel p ->
  heap w !! p = Some m ->
  exists w' ds,
    fold_left (fold_step main ctx) evs (Ret (s, w)) = Ret (s, w') /\
    sent w' = sent w ++ ds /\
    length ds = length (List.filter broadcasting evs) /\
    forallb (status_broadcast (sock_id s)) ds = true.
Proof.
  intros Hs Hm.
  destruct (events_on_model ctx evs s w p m Hs Hm) as (m' & ds & Hf & _ & _ & _ & Hl & Hb).
  eexists. exists ds. split; [exact Hf|]. cbn [sent with_sent]. auto.
Qed.

End Sequences.

(** ** How the handlers compose *)

Section Composition.
Context {ext : Externals}.

Lemma NewThermoModel_at ctx s w p hp :
  Assigns s = VModel p -> heap w = hp ->
  NewThermoModel ctx s w = Ret (p, with_heap hp w).
Proof.
  intros Hs <-. rewrite with_heap_id. apply NewThermoModel_present. exact Hs.
Qed.


(** X5: [tempUp] and [tempDown] called on a socket that holds no model
    first make one: the call equals [NewThermoModel] followed by the same
    call on the socket that holds the new model, so [tempUp] returns the
    default model with Temperature 19.5 + 0.1.  The self-handlers do the same
    under a context that carries the request, and panic under one that does
    not, whatever the payload is. *)
Theorem handlers_initialise_first ctx s prm data w :
  (forall q, Assigns s <> VModel q) ->
  let first (h : Socket -> M (value * option error)) : M (value * option error) :=
    p <~ NewThermoModel ctx s ;; h (set_Assigns (VModel p) s) in
  tempUp ctx s prm w = first (fun s' => tempUp ctx s' prm) w /\
  tempDown ctx s prm w = first (fun s' => tempDown ctx s' prm) w /\
  selfStatus ctx s data w = first (fun s' => selfStatus ctx s' data) w /\
  selfTime ctx s data w = first (fun s' => selfTime ctx s' data) w /\
  selfStatus Background s data w = Panic NilDereference /\
  selfTime Background s data w = Panic NilDereference /\
  exists w',
    tempUp ctx s prm w = Ret ((VModel (length (heap w)), None), w') /\
    heap w' = heap w ++ [set_Temperature (F32.add F32.c19_5 F32.c0_1) (fresh_model ctx)].
Proof.
  intros Hs first. subst first. cbn beta.
  pose proof (NewThermoModel_absent ctx s w Hs) as Hnew.
  assert (Hagain : forall w1, NewThermoModel ctx (set_Assigns (VModel (length (heap w))) s) w1
                              = Ret (length (heap w), w1))
    by (intros w1; apply NewThermoModel_present; reflexivity).
  assert (Hno : holds_model s = false).
  { unfold holds_model. destruct (Assigns s) as [|q| | | |]; try reflexivity.
    exfalso. apply (Hs q). reflexivity. }
  repeat split;
    try (unfold tempUp, tempDown, selfStatus, selfTime, bind;
         rewrite Hnew, Hagain; reflexivity);
    try (unfold selfStatus, selfTime, bind;
         rewrite (NewThermoModel_no_request s w Hno); reflexivity).
  assert (Hm : (heap w ++ [fresh_model ctx]) !! length (heap w) = Some (fresh_model ctx)).
  { rewrite lookup_app_r by lia. rewrite Nat.sub_diag. reflexivity. }
  rewrite (tempUp_run _ _ prm _ _ _ _ Hnew Hm). eexists. split; [reflexivity|].
  cbn [heap with_heap].
  rewrite insert_app_r_alt by lia. rewrite Nat.sub_diag. reflexivity.
Qed.

(** X6: a second mount of a socket keeps the model of the first, with its
    Temperature, and allocates nothing, but subscribes once more: after two
    mounts the connection holds two subscriptions on [go-live] for the same
    socket identity, and two log lines. *)
Theorem thermoMount_twice ctx s w :
  exists p w1 w2,
    thermoMount ctx s w = Ret ((VModel p, None), w1) /\
    thermoMount ctx (set_Assigns (VModel p) s) w1 = Ret ((VModel p, None), w2) /\
    heap w2 = heap w1 /\
    sent w2 = sent w /\
    ec w2 = ec w ++ [go_live ctx s; go_live ctx (set_Assigns (VModel p) s)] /\
    sock_id (sub_owner (go_live ctx (set_Assigns (VModel p) s))) = sock_id s /\
    logs w2 = logs w ++ ["Mounting application"; "Mounting application"].
Proof.
  destruct (thermoMount_run ctx s w) as (p & w1 & Hn1 & H1).
  destruct (thermoMount_run ctx (set_Assigns (VModel p) s) w1) as (p2 & w2 & Hn2 & H2).
  rewrite (NewThermoModel_present ctx (set_Assigns (VModel p) s) _ p eq_refl) in Hn2.
  injection Hn2 as <- <-.
  exists p, w1. eexists. split; [exact H1|]. split; [exact H2|].
  cbn [heap ec sent logs].
  assert (Hw1 : ec w1 = ec w ++ [go_live ctx s] /\ sent w1 = sent w /\
                logs w1 = logs w ++ ["Mounting application"]).
  { revert Hn1. unfold NewThermoModel, alloc, ret.
    destruct (Assigns s); intros Hn1; injection Hn1 as _ <-; cbn; auto. }
  destruct Hw1 as (-> & -> & ->). rewrite <- !app_assoc. auto.
Qed.

End Composition.

(** ** More on rendering *)

Section RenderProperties.
Context {ext : Externals}.

(** X7: [render] never panics and never changes the process state.  It
    returns a page when the assigns is a pointer to an allocated model, and
    its error when the assigns is nil, a nil pointer, or a string, an
    integer, a float or a boolean. *)
Theorem render_page_or_error ctx d w :
  (exists r, render ctx d w = Ret (r, w)) /\
  (forall p m, rc_Assigns d = VModel p -> heap w !! p = Some m ->
     exists out, render ctx d w = Ret (Rendered out, w)) /\
  (forall p, rc_Assigns d = VModel p -> heap w !! p = None ->
     exists e, render ctx d w = Ret (RenderFailed e, w)) /\
  (is_pointer (rc_Assigns d) = false ->
     exists e, render ctx d w = Ret (RenderFailed e, w)).
Proof.
  split; [apply render_pure|]. split; [|split].
  - intros p m Hd Hm.
    destruct (render_model ctx d w p m Hd Hm) as (out & _ & H). eauto.
  - intros p Hd Hm. unfold render. rewrite Hd, Hm. eauto.
  - intros Hp. unfold render. destruct (rc_Assigns d); try discriminate Hp; eauto.
Qed.

(** X8: the page is the static text of the template around the four fields
    of the model, each of which reaches the page through the HTML escaping
    only, the Temperature after its formatting; the warning is on the page
    exactly when the Temperature is not at most 25. *)
Theorem render_escapes_fields :
  exists t0 t1 t2 warn t3 t4 t5,
    (forall m,
       exec_nodes m thermo_template =
         Some (t0 +:+ HTMLEscapeString (Name m) +:+
               t1 +:+ HTMLEscapeString (FormatFloat32 (Temperature m)) +:+
               t2 +:+ (if F32.leb (Temperature m) F32.c25 then "" else warn) +:+
               t3 +:+ HTMLEscapeString (Time m) +:+
               t4 +:+ HTMLEscapeString (Status m) +:+ t5)) /\
    warn <> "".
Proof.
  do 7 eexists. split.
  - intros m. unfold thermo_template. cbn [exec_nodes exec_node eval_gt eval_field].
    destruct (F32.leb (Temperature m) F32.c25); cbn [negb]; reflexivity.
  - discriminate.
Qed.

(** X9: after the mount of a socket and any sequence of events on it,
    [render] returns a page: no event of a client can bring the socket into
    a state that does not render. *)
Theorem render_after_events ctx s w evs :
  valid_assigns (Assigns s) w ->
  exists p w0 w' out,
    thermoMount ctx s w = Ret ((VModel p, None), w0) /\
    fold_left (fold_step main ctx) evs (Ret (set_Assigns (VModel p) s, w0))
      = Ret (set_Assigns (VModel p) s, w') /\
    render ctx {| rc_Socket := set_Assigns (VModel p) s; rc_Assigns := VModel p |} w'
      = Ret (Rendered out, w').
Proof.
  intros V.
  destruct (thermoMount_run ctx s w) as (p & w0 & Hn & Hmount).
  match type of Hn with NewThermoModel _ _ ?wm = _ =>
    assert (Vm : valid_assigns (Assigns s) wm) by exact V;
    destruct (NewThermoModel_valid ctx s wm Vm) as (p' & hp & m0 & Hn' & Hm0 & _)
  end.
  rewrite Hn in Hn'. injection Hn' as Hp Hw. subst p'.
  assert (Hm : heap w0 !! p = Some m0) by (rewrite Hw; exact Hm0).
  destruct (events_on_model ctx evs (set_Assigns (VModel p) s) w0 p m0 eq_refl Hm)
    as (m' & ds & Hf & _).
  match type of Hf with _ = Ret (_, ?wf) =>
    assert (Hm' : heap wf !! p = Some m')
      by (cbn [heap with_sent with_heap]; apply list_lookup_insert_eq;
          eapply lookup_lt_Some; exact Hm);
    destruct (render_model ctx
                {| rc_Socket := set_Assigns (VModel p) s; rc_Assigns := VModel p |}
                wf p m' eq_refl Hm') as (out & _ & Hr)
  end.
  do 4 eexists. split; [exact Hmount|]. split; [exact Hf | exact Hr].
Qed.

(** X10: the event names the page can send, the values of its [live-click],
    [live-window-keyup] and [live-submit] attributes, are exactly the names
    [main] registers a handler for: no control of the page sends an unknown
    event, and no handler is out of reach of the page. *)
Theorem template_events_registered name :
  name ∈ template_events thermo_template <-> is_Some (eventHandlers main !! name).
Proof.
  assert (E : template_events thermo_template =
              ["temp-up"; "temp-down"; "temp-change"; "temp-change";
               "temp-up"; "temp-down"; "save"])
    by (vm_compute; reflexivity).
  rewrite E, main_eventHandlers. split.
  - intros Hin. repeat case_decide; try (eexists; reflexivity).
    exfalso. apply list_elem_of_In in Hin. cbn in Hin. intuition congruence.
  - intros [f Hf]. apply list_elem_of_In.
    repeat case_decide; try discriminate Hf; subst name; cbn; auto 10.
Qed.

End RenderProperties.

(** ** What the broadcasting handlers send *)

Section Broadcasts.
Context {ext : Externals}.

(** X11: [tempChange] stores the old Temperature plus the parameter
    [temperature] and broadcasts one [status] message that reports the old
    and the stored Temperature; its format string starts with the Name of
    the model, so the Name is read as a format.  [saveEvent] leaves the
    Name, the Temperature and the Time of the model as they are and
    broadcasts the Name, a colon and the parameter [message], without any
    formatting. *)
Theorem broadcasts_report_the_model ctx s prm w p m :
  Assigns s = VModel p ->
  heap w !! p = Some m ->
  (exists w' m',
     tempChange ctx s prm w = Ret ((VModel p, None), w') /\
     heap w' !! p = Some m' /\
     Temperature m' = F32.add (Temperature m) (Params_Float32 prm "temperature") /\
     sent w' = sent w ++
       [ToAll (sock_id s) "status"
          (VString (Sprintf (Name m +:+ ": Temperature changed from %f to %f")
                            [VFloat32 (Temperature m); VFloat32 (Temperature m')]))]) /\
  (exists w' m',
     saveEvent ctx s prm w = Ret ((VModel p, None), w') /\
     heap w' !! p = Some m' /\
     Name m' = Name m /\ Temperature m' = Temperature m /\ Time m' = Time m /\
     sent w' = sent w ++
       [ToAll (sock_id s) "status"
          (VString (Name m +:+ ": " +:+ Params_String prm "message"))]).
Proof.
  intros Hs Hm.
  assert (Hnew : NewThermoModel ctx s w = Ret (p, with_heap (heap w) w))
    by (apply NewThermoModel_at; auto).
  split.
  - do 2 eexists. split; [apply (tempChange_run _ _ _ _ _ _ _ Hnew Hm)|].
    cbn [heap sent with_sent with_heap]. split.
    + apply list_lookup_insert_eq. eapply lookup_lt_Some. exact Hm.
    + split; reflexivity.
  - eexists. exists m. split; [apply (saveEvent_run _ _ _ _ _ _ _ Hnew Hm)|].
    cbn [heap sent with_sent with_heap]. auto.
Qed.

End Broadcasts.

(** ** The further properties at the sample inputs *)

Section MoreSamples.
#[local] Existing Instance plain_externals.

Lemma quiet_events_keep_the_rest_witness :
  Assigns sock1 = VModel 0 /\
  heap world1 !! 0 = Some (fresh_model ctx0) /\
  List.filter broadcasting [temp_up; frobulate; temp_up] = [] /\
  exists t,
    fold_left (fold_step main ctx0) [temp_up; frobulate; temp_up] (Ret (sock1, world1))
      = Ret (sock1,
             with_heap (<[0 := {| Name := Name (fresh_model ctx0); Temperature := t;
                                  Status := Status (fresh_model ctx0);
                                  Time := Time (fresh_model ctx0) |}]> (heap world1))
                       world1).
Proof.
  split; [reflexivity|]. split; [reflexivity|]. split; [reflexivity|].
  apply (quiet_events_keep_the_rest ctx0 [temp_up; frobulate; temp_up] sock1 world1 0
           (fresh_model ctx0)); reflexivity.
Defined.

Lemma events_keep_name_and_time_witness :
  Assigns sock1 = VModel 0 /\
  heap world1 !! 0 = Some (fresh_model ctx0) /\
  exists w' m',
    fold_left (fold_step main ctx0) clicks (Ret (sock1, world1)) = Ret (sock1, w') /\
    heap w' !! 0 = Some m' /\
    Name m' = Name (fresh_model ctx0) /\ Time m' = Time (fresh_model ctx0) /\
    length (heap w') = length (heap world1) /\
    ec w' = ec world1 /\ logs w' = logs world1.
Proof.
  split; [reflexivity|]. split; [reflexivity|].
  apply (events_keep_name_and_time ctx0 clicks sock1 world1 0 (fresh_model ctx0));
    reflexivity.
Defined.

Lemma events_broadcast_count_witness :
  Assigns sock1 = VModel 0 /\
  heap world1 !! 0 = Some (fresh_model ctx0) /\
  exists w' ds,
    fold_left (fold_step main ctx0) clicks (Ret (sock1, world1)) = Ret (sock1, w') /\
    sent w' = sent world1 ++ ds /\
    length ds = length (List.filter broadcasting clicks) /\
    forallb (status_broadcast (sock_id sock1)) ds = true.
Proof.
  split; [reflexivity|]. split; [reflexivity|].
  apply (events_broadcast_count ctx0 clicks sock1 world1 0 (fresh_model ctx0)); reflexivity.
Defined.


Lemma handlers_initialise_first_witness :
  (forall q, Assigns sock0 <> VModel q) /\
  tempUp ctx0 sock0 ∅ world0
    = (p <~ NewThermoModel ctx0 sock0 ;; tempUp ctx0 (set_Assigns (VModel p) sock0) ∅) world0.
Proof.
  assert (H : forall q, Assigns sock0 <> VModel q) by (intros q; simpl; discriminate).
  split; [exact H|].
  apply (handlers_initialise_first ctx0 sock0 ∅ VNil world0 H).
Defined.

Lemma render_after_events_witness :
  valid_assigns (Assigns sock0) world0 /\
  exists p w0 w' out,
    thermoMount ctx0 sock0 world0 = Ret ((VModel p, None), w0) /\
    fold_left (fold_step main ctx0) clicks (Ret (set_Assigns (VModel p) sock0, w0))
      = Ret (set_Assigns (VModel p) sock0, w') /\
    render ctx0 {| rc_Socket := set_Assigns (VModel p) sock0; rc_Assigns := VModel p |} w'
      = Ret (Rendered out, w').
Proof.
  split; [exact I|].
  apply (render_after_events ctx0 sock0 world0 clicks). exact I.
Defined.

Lemma broadcasts_report_the_model_witness :
  Assigns sock1 = VModel 0 /\
  heap world1 !! 0 = Some (fresh_model ctx0) /\
  exists w',
    saveEvent ctx0 sock1 (ev_params save_hello) world1 = Ret ((VModel 0, None), w') /\
    sent w' = sent world1 ++ [ToAll 0 "status" (VString "ann: hello")].
Proof.
  split; [reflexivity|]. split; [reflexivity|].
  destruct (proj2 (broadcasts_report_the_model ctx0 sock1 (ev_params save_hello) world1 0
                     (fresh_model ctx0) eq_refl eq_refl))
    as (w' & m' & Hrun & _ & _ & _ & _ & Hsent).
  exists w'. split; [exact Hrun | exact Hsent].
Defined.

End MoreSamples.
